(** * Authentication service and route guards of the auth-guard tutorial

    A shallow embedding of
    - [core/models/user.model.ts]   (the data model),
    - [core/services/auth.service.ts] (the session state manager),
    - [core/guards/auth.guard.ts] and [core/guards/role.guard.ts]
      (the route access guards),
    followed by the properties of the specification that concern them.

    Conventions of the embedding.
    - A TypeScript interface is a record inside a module of the same name;
      an optional or nullable field is an [option].
    - The writable signals of [AuthService] are the fields of the record
      [AuthService]; the computed signals are functions of that record.
    - Firebase Auth and the failure behaviour of Firestore are outside the
      repository: they are the record [Firebase], which fixes what every
      call answers.  The [users] collection itself is state of the [World].
    - [async] functions and RxJS pipelines are computations of the monad
      [Async]: state passing with exceptions, where the state reached before
      an exception is kept, as in JavaScript.
    - An [Observable] is the computation that runs when it is subscribed.
    - A sign-in that succeeds makes the provider push an auth-state event,
      which the service receives in its listener.  The stand-ins of the SDK
      calls give the call's answer only; the event is a run of
      [onAuthStateChanged], and a statement about the session after a
      sign-in composes that run ([afterPushEvent]). *)

From Stdlib Require Import String List Bool.
From stdpp Require Import base strings gmap.

Local Open Scope string_scope.

(* ===================================================================== *)
(** ** Data model: [user.model.ts] and the Firebase records it mirrors    *)
(* ===================================================================== *)

(** [export type UserRole = 'admin' | 'user' | 'moderator' | 'guest'] *)
Inductive UserRole : Type := admin | user | moderator | guest.

#[global] Instance UserRole_eq_dec : EqDecision UserRole.
Proof. solve_decision. Defined.

(** Firestore's [Timestamp]; [serverTimestamp ()] is the sentinel that the
    server replaces by its clock. *)
Inductive Timestamp : Type :=
| serverTimestamp
| TimestampAt (seconds : nat).

(** The Firebase [User] ([FirebaseUser] in the service). *)
Module FirebaseUser.
Record t : Type := mk {
  uid : string;
  email : option string;
  emailVerified : bool;
  displayName : option string;
  photoURL : option string
}.
End FirebaseUser.

(** [interface UserProfile]: the document stored under [users/<uid>].
    [roles] and [permissions] are options because the reader guards against
    their absence ([data.roles ?? ['user']]). *)
Module UserProfile.
Record t : Type := mk {
  email : string;
  displayName : string;
  photoURL : option string;
  roles : option (list UserRole);
  permissions : option (list string);
  createdAt : option Timestamp;
  updatedAt : option Timestamp;
  lastLoginAt : option Timestamp
}.
End UserProfile.

(** [interface User]: the profile held by the session. *)
Module User.
Record t : Type := mk {
  uid : string;
  email : string;
  emailVerified : bool;
  displayName : string;
  photoURL : option string;
  roles : list UserRole;
  permissions : list string;
  createdAt : option Timestamp;
  updatedAt : option Timestamp
}.
End User.

(** A thrown JavaScript value, as far as [handleAuthError] looks at it:
    [error.code] and [error.message]. *)
Record JsError : Type := mkError {
  code : option string;
  message : option string
}.

(** [new Error (message)] *)
Definition newError (m : string) : JsError :=
  {| code := None; message := Some m |}.

(** [a ?? b] *)
Definition nullish {A : Type} (a : option A) (b : A) : A :=
  match a with
  | Some x => x
  | None => b
  end.

(** [a || b] on strings: the empty string and [undefined] are falsy. *)
Definition or_else (a : option string) (b : string) : string :=
  match a with
  | Some x => if String.eqb x "" then b else x
  | None => b
  end.

(** [Array.prototype.includes] *)
Definition includes {A : Type} `{EqDecision A} (l : list A) (x : A) : bool :=
  existsb (fun y => bool_decide (y = x)) l.

(** [Array.prototype.some] and [Array.prototype.every] *)
Definition some {A : Type} (l : list A) (p : A -> bool) : bool := existsb p l.
Definition every {A : Type} (l : list A) (p : A -> bool) : bool := forallb p l.

(** [Array.prototype.join] *)
Definition join (sep : string) (l : list string) : string := String.concat sep l.

(* ===================================================================== *)
(** ** Session state: the signals of [AuthService]                        *)
(* ===================================================================== *)

Record AuthService : Type := mkAuthService {
  currentUser : option User.t;
  firebaseUser : option FirebaseUser.t;
  loading : bool;
  authError : option string
}.

(** The field initialisers: no user, no identity, [loading = true]. *)
Definition initialAuthService : AuthService :=
  {| currentUser := None; firebaseUser := None; loading := true; authError := None |}.

(** [!!x] of a nullable object *)
Definition truthy {A : Type} (x : option A) : bool :=
  match x with
  | Some _ => true
  | None => false
  end.

Definition isLoading (s : AuthService) : bool := loading s.

Definition isAuthenticated (s : AuthService) : bool :=
  truthy (currentUser s) && truthy (firebaseUser s).

Definition userRoles (s : AuthService) : list UserRole :=
  nullish (option_map User.roles (currentUser s)) [].

Definition userPermissions (s : AuthService) : list string :=
  nullish (option_map User.permissions (currentUser s)) [].

Definition isEmailVerified (s : AuthService) : bool :=
  nullish (option_map FirebaseUser.emailVerified (firebaseUser s)) false.

Definition hasRole (s : AuthService) (role : UserRole) : bool :=
  includes (userRoles s) role.

Definition hasAnyRole (s : AuthService) (roles : list UserRole) : bool :=
  some roles (fun role => hasRole s role).

Definition hasAllRoles (s : AuthService) (roles : list UserRole) : bool :=
  every roles (fun role => hasRole s role).

Definition hasPermission (s : AuthService) (permission : string) : bool :=
  includes (userPermissions s) permission.

Definition hasAnyPermission (s : AuthService) (permissions : list string) : bool :=
  some permissions (fun permission => hasPermission s permission).

(* ===================================================================== *)
(** ** The world around the service, and the [Async] monad                *)
(* ===================================================================== *)

(** What the service does to its collaborators, in order: calls of the
    Firebase Auth SDK, [console.error] and [router.navigate]. *)
Inductive Effect : Type :=
| SignIn (email password : string)
| CreateUser (email password : string)
| UpdateProfile (uid displayName : string)
| SendEmailVerification (uid : string)
| SignOut
| ConsoleError (label : string) (error : JsError)
| Navigate (commands : list string).

Record World : Type := mkWorld {
  svc : AuthService;                      (* the signals *)
  users : gmap string UserProfile.t;      (* Firestore collection 'users' *)
  trace : list Effect                     (* oldest effect first *)
}.

(** How a promise settles. *)
Inductive Outcome (A : Type) : Type :=
| Resolved (a : A)
| Rejected (e : JsError).
Arguments Resolved {A} a.
Arguments Rejected {A} e.

Definition Async (A : Type) : Type := World -> Outcome A * World.

(** An observable built with [from (promise).pipe (...)]: nothing of the
    pipeline runs before [subscribe]. *)
Definition Observable (A : Type) : Type := Async A.

Definition resolve {A : Type} (a : A) : Async A := fun w => (Resolved a, w).

Definition reject {A : Type} (e : JsError) : Async A := fun w => (Rejected e, w).

Definition then_ {A B : Type} (m : Async A) (k : A -> Async B) : Async B :=
  fun w =>
    match m w with
    | (Resolved a, w') => k a w'
    | (Rejected e, w') => (Rejected e, w')
    end.

(** [try { m } catch (e) { h e }], and RxJS [catchError]. *)
Definition try_catch {A : Type} (m : Async A) (h : JsError -> Async A) : Async A :=
  fun w =>
    match m w with
    | (Resolved a, w') => (Resolved a, w')
    | (Rejected e, w') => h e w'
    end.

(** [const x = await m; k], and a statement [m; k] whose value is dropped. *)
Notation "'await' x <- m 'in' k" := (then_ m (fun x => k))
  (at level 10, x name, m at level 200, k at level 200, only parsing).
Notation "'exec' m 'in' k" := (then_ m (fun _ => k))
  (at level 10, m at level 200, k at level 200, only parsing).

Definition subscribe {A : Type} (o : Observable A) (w : World) : Outcome A * World := o w.

(** *** Signal writes *)

Definition with_svc (f : AuthService -> AuthService) : Async unit :=
  fun w => (Resolved tt, {| svc := f (svc w); users := users w; trace := trace w |}).

Definition set_currentUser (u : option User.t) : Async unit :=
  with_svc (fun s => {| currentUser := u; firebaseUser := firebaseUser s;
                        loading := loading s; authError := authError s |}).

Definition set_firebaseUser (f : option FirebaseUser.t) : Async unit :=
  with_svc (fun s => {| currentUser := currentUser s; firebaseUser := f;
                        loading := loading s; authError := authError s |}).

Definition set_loading (b : bool) : Async unit :=
  with_svc (fun s => {| currentUser := currentUser s; firebaseUser := firebaseUser s;
                        loading := b; authError := authError s |}).

Definition set_authError (m : option string) : Async unit :=
  with_svc (fun s => {| currentUser := currentUser s; firebaseUser := firebaseUser s;
                        loading := loading s; authError := m |}).

(** [this.currentUser.update (f)] *)
Definition update_currentUser (f : option User.t -> option User.t) : Async unit :=
  with_svc (fun s => {| currentUser := f (currentUser s); firebaseUser := firebaseUser s;
                        loading := loading s; authError := authError s |}).

Definition get_svc : Async AuthService := fun w => (Resolved (svc w), w).

(** *** Collaborators *)

Definition emit (e : Effect) : Async unit :=
  fun w => (Resolved tt, {| svc := svc w; users := users w; trace := trace w ++ [e] |}).

Definition console_error (label : string) (e : JsError) : Async unit :=
  emit (ConsoleError label e).

Definition navigate (commands : list string) : Async unit :=
  emit (Navigate commands).

Definition of_outcome {A : Type} (o : Outcome A) : Async A := fun w => (o, w).

(** The answers of Firebase: how each call of the Auth SDK settles, and
    whether a Firestore access to [users/<uid>] fails. *)
Record Firebase : Type := mkFirebase {
  auth_signIn : string -> string -> Outcome FirebaseUser.t;
  auth_createUser : string -> string -> Outcome FirebaseUser.t;
  auth_signOut : Outcome unit;
  auth_updateProfile : FirebaseUser.t -> string -> Outcome unit;
  auth_sendEmailVerification : FirebaseUser.t -> Outcome unit;
  getDoc_error : string -> option JsError;
  setDoc_error : string -> option JsError;
  updateDoc_error : string -> option JsError
}.

(** [UserCredential]: only [credential.user] is read. *)
Module UserCredential.
Record t : Type := mk { user : FirebaseUser.t }.
End UserCredential.

Section Service.

Variable fb : Firebase.

(** The answer of the call.  The auth-state event of a successful sign-in
    is not part of it: see [afterPushEvent]. *)
Definition signInWithEmailAndPassword (email password : string) : Async UserCredential.t :=
  exec emit (SignIn email password) in
  await u <- of_outcome (auth_signIn fb email password) in
  resolve (UserCredential.mk u).

(** The answer of the call.  Creating an account signs the user in; the
    auth-state event of that sign-in is not part of the answer: see
    [afterPushEvent]. *)
Definition createUserWithEmailAndPassword (email password : string) : Async UserCredential.t :=
  exec emit (CreateUser email password) in
  await u <- of_outcome (auth_createUser fb email password) in
  resolve (UserCredential.mk u).

Definition signOut : Async unit :=
  exec emit SignOut in of_outcome (auth_signOut fb).

Definition updateProfile (u : FirebaseUser.t) (displayName : string) : Async unit :=
  exec emit (UpdateProfile (FirebaseUser.uid u) displayName) in
  of_outcome (auth_updateProfile fb u displayName).

Definition sendEmailVerification (u : FirebaseUser.t) : Async unit :=
  exec emit (SendEmailVerification (FirebaseUser.uid u)) in
  of_outcome (auth_sendEmailVerification fb u).

(** [getDoc (doc (firestore, 'users', uid))]: the snapshot's data, [None]
    when [exists ()] is false. *)
Definition getDoc (uid : string) : Async (option UserProfile.t) :=
  fun w =>
    match getDoc_error fb uid with
    | Some e => (Rejected e, w)
    | None => (Resolved (users w !! uid), w)
    end.

(** [setDoc (doc (firestore, 'users', uid), data)] *)
Definition setDoc (uid : string) (data : UserProfile.t) : Async unit :=
  fun w =>
    match setDoc_error fb uid with
    | Some e => (Rejected e, w)
    | None => (Resolved tt, {| svc := svc w; users := <[uid := data]> (users w); trace := trace w |})
    end.

(** [updateDoc (doc (firestore, 'users', uid), fields)]: Firestore rejects
    the update of a document that does not exist. *)
Definition updateDoc (uid : string) (patch : UserProfile.t -> UserProfile.t) : Async unit :=
  fun w =>
    match updateDoc_error fb uid with
    | Some e => (Rejected e, w)
    | None =>
        match users w !! uid with
        | Some data =>
            (Resolved tt, {| svc := svc w; users := <[uid := patch data]> (users w); trace := trace w |})
        | None =>
            (Rejected {| code := Some "not-found"; message := Some "No document to update" |}, w)
        end
    end.

(* ===================================================================== *)
(** ** [AuthService]: private helpers                                     *)
(* ===================================================================== *)

Definition getUserProfile (uid : string) (emailVerified : bool) : Async (option User.t) :=
  await userSnap <- getDoc uid in
  match userSnap with
  | Some data =>
      resolve (Some {|
        User.uid := uid;
        User.email := UserProfile.email data;
        User.emailVerified := emailVerified;
        User.displayName := UserProfile.displayName data;
        User.photoURL := UserProfile.photoURL data;
        User.roles := nullish (UserProfile.roles data) [user];
        User.permissions := nullish (UserProfile.permissions data) ["read"];
        User.createdAt := UserProfile.createdAt data;
        User.updatedAt := UserProfile.updatedAt data
      |})
  | None => resolve None
  end.

Definition createUserProfile (firebaseUser : FirebaseUser.t) (displayName : option string)
  : Async User.t :=
  let userProfile := {|
    UserProfile.email := nullish (FirebaseUser.email firebaseUser) "";
    UserProfile.displayName :=
      nullish displayName (nullish (FirebaseUser.displayName firebaseUser) "User");
    UserProfile.photoURL := FirebaseUser.photoURL firebaseUser;
    UserProfile.roles := Some [user];
    UserProfile.permissions := Some ["read"];
    UserProfile.createdAt := Some serverTimestamp;
    UserProfile.updatedAt := Some serverTimestamp;
    UserProfile.lastLoginAt := None
  |} in
  exec setDoc (FirebaseUser.uid firebaseUser) userProfile in
  resolve {|
    User.uid := FirebaseUser.uid firebaseUser;
    User.emailVerified := FirebaseUser.emailVerified firebaseUser;
    User.email := UserProfile.email userProfile;
    User.displayName := UserProfile.displayName userProfile;
    User.photoURL := UserProfile.photoURL userProfile;
    User.roles := [user];
    User.permissions := ["read"];
    User.createdAt := UserProfile.createdAt userProfile;
    User.updatedAt := UserProfile.updatedAt userProfile
  |}.

(** The fields [updateDoc] writes at a login. *)
Definition touchLastLogin (data : UserProfile.t) : UserProfile.t :=
  {| UserProfile.email := UserProfile.email data;
     UserProfile.displayName := UserProfile.displayName data;
     UserProfile.photoURL := UserProfile.photoURL data;
     UserProfile.roles := UserProfile.roles data;
     UserProfile.permissions := UserProfile.permissions data;
     UserProfile.createdAt := UserProfile.createdAt data;
     UserProfile.updatedAt := Some serverTimestamp;
     UserProfile.lastLoginAt := Some serverTimestamp |}.

Definition handleAuthSuccess (credential : UserCredential.t) : Async User.t :=
  let firebaseUser := UserCredential.user credential in
  await found <- getUserProfile (FirebaseUser.uid firebaseUser) (FirebaseUser.emailVerified firebaseUser) in
  await userProfile <- match found with
                 | None => createUserProfile firebaseUser None
                 | Some p =>
                     exec updateDoc (FirebaseUser.uid firebaseUser) touchLastLogin in
                     resolve p
                 end in
  exec set_currentUser (Some userProfile) in
  resolve userProfile.

(** The [switch (error.code)] of [handleAuthError]. *)
Definition authErrorMessage (error : JsError) : string :=
  let codeIs c := match code error with
              | Some c' => String.eqb c' c
              | None => false
              end in
  if codeIs "auth/user-not-found" then "No account found with this email address."
  else if codeIs "auth/wrong-password" then "Incorrect password. Please try again."
  else if codeIs "auth/invalid-credential" then "Invalid email or password. Please try again."
  else if codeIs "auth/email-already-in-use" then "An account with this email already exists."
  else if codeIs "auth/weak-password" then "Password should be at least 6 characters."
  else if codeIs "auth/invalid-email" then "Please enter a valid email address."
  else if codeIs "auth/too-many-requests" then "Too many failed attempts. Please try again later."
  else if codeIs "auth/popup-closed-by-user" then "Sign-in popup was closed. Please try again."
  else or_else (message error) "An error occurred. Please try again.".

Definition handleAuthError {A : Type} (error : JsError) : Observable A :=
  exec set_loading false in
  let message := authErrorMessage error in
  exec set_authError (Some message) in
  reject (newError message).

End Service.

(* ===================================================================== *)
(** ** RxJS operators used by the service                                 *)
(* ===================================================================== *)

(** [from (promise)] *)
Definition from {A : Type} (p : Async A) : Observable A := p.

(** [of (x)] *)
Definition of_ {A : Type} (x : A) : Observable A := resolve x.

(** [throwError (() => e)] *)
Definition throwError {A : Type} (e : JsError) : Observable A := reject e.

Definition switchMap {A B : Type} (f : A -> Async B) (o : Observable A) : Observable B :=
  then_ o f.

(** [tap (f)]: [f] runs on the emitted value only, never on an error. *)
Definition tap {A : Type} (f : A -> Async unit) (o : Observable A) : Observable A :=
  await x <- o in
  exec f x in
  resolve x.

Definition catchError {A : Type} (h : JsError -> Observable A) (o : Observable A)
  : Observable A :=
  try_catch o h.

(* ===================================================================== *)
(** ** [AuthService]: the listener and the public operations              *)
(* ===================================================================== *)

Section Operations.

Variable fb : Firebase.

(** The callback the constructor hands to [onAuthStateChanged]: one run
    per provider push event. *)
Definition onAuthStateChanged (firebaseUser : option FirebaseUser.t) : Async unit :=
  exec set_firebaseUser firebaseUser in
  exec match firebaseUser with
       | Some fu =>
           try_catch
             (await userProfile <-
                getUserProfile fb (FirebaseUser.uid fu) (FirebaseUser.emailVerified fu) in
              match userProfile with
              | Some p => set_currentUser (Some p)
              | None =>
                  await newProfile <- createUserProfile fb fu None in
                  set_currentUser (Some newProfile)
              end)
             (fun error =>
                exec console_error "Error fetching user profile:" error in
                set_currentUser None)
       | None => set_currentUser None
       end in
  set_loading false.

(** A method that writes signals when it is called and hands back an
    observable: the state after the call, and the pipeline to subscribe.
    The SDK call inside [from (...)] is issued at the call and settles
    later; its effect and its answer are placed where the pipeline
    receives them, at the subscription. *)
Definition Method (A : Type) : Type := World -> Observable A * World.

Definition login (email password : string) : Method User.t :=
  fun w =>
    let w' := snd ((exec set_loading true in set_authError None) w) in
    (catchError (fun error => handleAuthError error)
       (tap (fun _ => set_loading false)
          (switchMap (fun credential => handleAuthSuccess fb credential)
             (from (signInWithEmailAndPassword fb email password)))),
     w').

Definition register (email password displayName : string) : Method User.t :=
  fun w =>
    let w' := snd ((exec set_loading true in set_authError None) w) in
    (catchError (fun error => handleAuthError error)
       (tap (fun _ => set_loading false)
          (switchMap
             (fun credential =>
                exec updateProfile fb (UserCredential.user credential) displayName in
                exec sendEmailVerification fb (UserCredential.user credential) in
                await userProfile <-
                  createUserProfile fb (UserCredential.user credential) (Some displayName) in
                exec set_currentUser (Some userProfile) in
                resolve userProfile)
             (from (createUserWithEmailAndPassword fb email password)))),
     w').

Definition logout : Method unit :=
  fun w =>
    (catchError
       (fun error =>
          exec console_error "Logout error:" error in
          of_ tt)
       (tap
          (fun _ =>
             exec set_currentUser None in
             exec set_firebaseUser None in
             navigate ["/login"])
          (from (signOut fb))),
     w).

(** Calling a method and subscribing to what it returns. *)
Definition run {A : Type} (m : Method A) (w : World) : Outcome A * World :=
  let (o, w') := m w in subscribe o w'.

(** The fields [updateDoc] writes in [updateUserRoles]. *)
Definition patchRoles (roles : list UserRole) (data : UserProfile.t) : UserProfile.t :=
  {| UserProfile.email := UserProfile.email data;
     UserProfile.displayName := UserProfile.displayName data;
     UserProfile.photoURL := UserProfile.photoURL data;
     UserProfile.roles := Some roles;
     UserProfile.permissions := UserProfile.permissions data;
     UserProfile.createdAt := UserProfile.createdAt data;
     UserProfile.updatedAt := Some serverTimestamp;
     UserProfile.lastLoginAt := UserProfile.lastLoginAt data |}.

(** [{ ...user, roles }] *)
Definition withRoles (roles : list UserRole) (u : User.t) : User.t :=
  {| User.uid := User.uid u; User.email := User.email u;
     User.emailVerified := User.emailVerified u; User.displayName := User.displayName u;
     User.photoURL := User.photoURL u; User.roles := roles;
     User.permissions := User.permissions u; User.createdAt := User.createdAt u;
     User.updatedAt := User.updatedAt u |}.

Definition updateUserRoles (uid : string) (roles : list UserRole) : Async unit :=
  exec updateDoc fb uid (patchRoles roles) in
  await s <- get_svc in
  if bool_decide (option_map User.uid (currentUser s) = Some uid)
  then update_currentUser (option_map (withRoles roles))
  else resolve tt.

End Operations.

(** The world once the listener has handled the auth-state event that a
    successful sign-in of [identity] makes the provider push. *)
Definition afterPushEvent (fb : Firebase) (identity : FirebaseUser.t) (w : World) : World :=
  snd (onAuthStateChanged fb (Some identity) w).

(* ===================================================================== *)
(** ** Route guards: [auth.guard.ts] and [role.guard.ts]                  *)
(* ===================================================================== *)

(** What [router.createUrlTree (commands, { queryParams })] is made from. *)
Record UrlTree : Type := mkUrlTree {
  commands : list string;
  queryParams : list (string * string)
}.

Definition createUrlTree (commands : list string) (queryParams : list (string * string))
  : UrlTree :=
  {| commands := commands; queryParams := queryParams |}.

(** The value a guard returns: [true], or a [UrlTree] to redirect to. *)
Inductive GuardResult : Type :=
| allow
| redirect (t : UrlTree).

(** [interface RoleRouteData] *)
Record RoleRouteData : Type := mkRoleRouteData {
  roles : option (list UserRole);
  permissions : option (list string);
  requireAll : option bool
}.

(** [ActivatedRouteSnapshot]: only [route.data] is read. *)
Record ActivatedRouteSnapshot : Type := mkRoute { data : RoleRouteData }.

(** [RouterStateSnapshot]: only [state.url] is read. *)
Record RouterStateSnapshot : Type := mkState { url : string }.

(** [UrlSegment] *)
Record UrlSegment : Type := mkSegment {
  path : string;
  parameters : list (string * string)
}.

(** The promise of the guards that wait: [ticks] are the sessions the
    [setInterval] callback sees at its successive runs, 50 ms apart.  The
    promise resolves at the first run that finds [isLoading ()] false, and
    is still pending ([None]) when no run did. *)
Fixpoint checkAuth (settled : AuthService -> GuardResult) (ticks : list AuthService)
  : option GuardResult :=
  match ticks with
  | [] => None
  | s :: later =>
      if negb (isLoading s) then Some (settled s) else checkAuth settled later
  end.

Definition authGuard (route : ActivatedRouteSnapshot) (state : RouterStateSnapshot)
  (authService : AuthService) (ticks : list AuthService) : option GuardResult :=
  if isLoading authService then
    checkAuth
      (fun s =>
         if isAuthenticated s then allow
         else redirect (createUrlTree ["/login"] [("returnUrl", url state)]))
      ticks
  else if isAuthenticated authService then Some allow
  else
    let returnUrl := url state in
    Some (redirect (createUrlTree ["/login"] [("returnUrl", returnUrl)])).

Definition authMatchGuard (segments : list UrlSegment) (authService : AuthService)
  : GuardResult :=
  if isAuthenticated authService then allow
  else
    let returnUrl := "/" ++ join "/" (map (fun s => path s) segments) in
    redirect (createUrlTree ["/login"] [("returnUrl", returnUrl)]).

Definition noAuthGuard (authService : AuthService) (ticks : list AuthService)
  : option GuardResult :=
  if isLoading authService then
    checkAuth
      (fun s =>
         if negb (isAuthenticated s) then allow
         else redirect (createUrlTree ["/dashboard"] []))
      ticks
  else if negb (isAuthenticated authService) then Some allow
  else Some (redirect (createUrlTree ["/dashboard"] [])).

Definition roleGuard (route : ActivatedRouteSnapshot) (authService : AuthService)
  : GuardResult :=
  if negb (isAuthenticated authService) then redirect (createUrlTree ["/login"] [])
  else
    let routeData := data route in
    let requiredRoles := nullish (roles routeData) [] in
    let requireAll := nullish (requireAll routeData) false in
    if Nat.eqb (length requiredRoles) 0 then allow
    else
      let hasAccess :=
        if requireAll then hasAllRoles authService requiredRoles
        else hasAnyRole authService requiredRoles in
      if hasAccess then allow
      else redirect (createUrlTree ["/unauthorized"] []).

Definition permissionGuard (route : ActivatedRouteSnapshot) (authService : AuthService)
  : GuardResult :=
  if negb (isAuthenticated authService) then redirect (createUrlTree ["/login"] [])
  else
    let routeData := data route in
    let requiredPermissions := nullish (permissions routeData) [] in
    let requireAll := nullish (requireAll routeData) false in
    if Nat.eqb (length requiredPermissions) 0 then allow
    else
      let hasAccess :=
        if requireAll then every requiredPermissions (fun p => hasPermission authService p)
        else hasAnyPermission authService requiredPermissions in
      if hasAccess then allow
      else redirect (createUrlTree ["/unauthorized"] []).

(** The factories return a guard that takes no argument: the route is not
    looked at. *)
Definition requireRoles (roles : list UserRole)
  : ActivatedRouteSnapshot -> AuthService -> GuardResult :=
  fun _ authService =>
    if negb (isAuthenticated authService) then redirect (createUrlTree ["/login"] [])
    else if hasAnyRole authService roles then allow
    else redirect (createUrlTree ["/unauthorized"] []).

Definition requirePermissions (permissions : list string)
  : ActivatedRouteSnapshot -> AuthService -> GuardResult :=
  fun _ authService =>
    if negb (isAuthenticated authService) then redirect (createUrlTree ["/login"] [])
    else if hasAnyPermission authService permissions then allow
    else redirect (createUrlTree ["/unauthorized"] []).

(* ===================================================================== *)
(** ** [AuthService]: the remaining operations                            *)
(* ===================================================================== *)

Section MoreOperations.

Variable fb : Firebase.

(** The fields [updateDoc] writes in [updateUserPermissions]. *)
Definition patchPermissions (permissions : list string) (data : UserProfile.t)
  : UserProfile.t :=
  {| UserProfile.email := UserProfile.email data;
     UserProfile.displayName := UserProfile.displayName data;
     UserProfile.photoURL := UserProfile.photoURL data;
     UserProfile.roles := UserProfile.roles data;
     UserProfile.permissions := Some permissions;
     UserProfile.createdAt := UserProfile.createdAt data;
     UserProfile.updatedAt := Some serverTimestamp;
     UserProfile.lastLoginAt := UserProfile.lastLoginAt data |}.

(** [{ ...user, permissions }] *)
Definition withPermissions (permissions : list string) (u : User.t) : User.t :=
  {| User.uid := User.uid u; User.email := User.email u;
     User.emailVerified := User.emailVerified u; User.displayName := User.displayName u;
     User.photoURL := User.photoURL u; User.roles := User.roles u;
     User.permissions := permissions; User.createdAt := User.createdAt u;
     User.updatedAt := User.updatedAt u |}.

Definition updateUserPermissions (uid : string) (permissions : list string) : Async unit :=
  exec updateDoc fb uid (patchPermissions permissions) in
  await s <- get_svc in
  if bool_decide (option_map User.uid (currentUser s) = Some uid)
  then update_currentUser (option_map (withPermissions permissions))
  else resolve tt.

(** [this.firebaseUser ()] is read when the method is called. *)
Definition resendVerificationEmail : Method unit :=
  fun w =>
    match firebaseUser (svc w) with
    | None => (throwError (newError "No user logged in"), w)
    | Some identity =>
        (catchError (fun error => handleAuthError error)
           (from (sendEmailVerification fb identity)),
         w)
    end.

(** [signInWithPopup (auth, provider)] and [sendPasswordResetEmail (auth,
    email)]: the record [Firebase] holds no answer for these two calls, so
    the answer is an argument of the method; they leave no entry in the
    trace.  The [GoogleAuthProvider] with its two scopes is only handed to
    the popup; the service reads nothing back from it. *)
Definition signInWithPopup (popup : Outcome FirebaseUser.t) : Async UserCredential.t :=
  await u <- of_outcome popup in
  resolve (UserCredential.mk u).

Definition sendPasswordResetEmail (sent : string -> Outcome unit) (email : string)
  : Async unit :=
  of_outcome (sent email).

Definition loginWithGoogle (popup : Outcome FirebaseUser.t) : Method User.t :=
  fun w =>
    let w' := snd ((exec set_loading true in set_authError None) w) in
    (catchError (fun error => handleAuthError error)
       (tap (fun _ => set_loading false)
          (switchMap (fun credential => handleAuthSuccess fb credential)
             (from (signInWithPopup popup)))),
     w').

Definition resetPassword (sent : string -> Outcome unit) (email : string) : Method unit :=
  fun w =>
    let w' := snd ((exec set_loading true in set_authError None) w) in
    (catchError (fun error => handleAuthError error)
       (tap (fun _ => set_loading false)
          (from (sendPasswordResetEmail sent email))),
     w').

End MoreOperations.

(** The first session of a poll that is no longer loading. *)
Definition firstSettled (ticks : list AuthService) : option AuthService :=
  find (fun s => negb (isLoading s)) ticks.

(* ===================================================================== *)
(** ** [LoginComponent]: the caller of [login]                            *)
(* ===================================================================== *)

Module LoginComponent.

Record t : Type := mk {
  email : string;
  password : string;
  successMessage : string
}.

(** [queryParams[key]] *)
Definition param (key : string) (queryParams : list (string * string)) : option string :=
  option_map snd (find (fun kv => String.eqb (fst kv) key) queryParams).

(** [onSubmit ()]: the component afterwards, the url handed to
    [router.navigateByUrl] (if the [next] handler ran), and the world.
    [queryParams] are those of [this.route.snapshot]. *)
Definition onSubmit (fb : Firebase) (queryParams : list (string * string)) (c : t)
  (w : World) : t * option string * World :=
  let c' := {| email := email c; password := password c; successMessage := "" |} in
  match run (login fb (email c) (password c)) w with
  | (Resolved _, w') =>
      let returnUrl := or_else (param "returnUrl" queryParams) "/dashboard" in
      (c', Some returnUrl, w')
  | (Rejected _, w') => (c', None, w')
  end.

End LoginComponent.

(* ===================================================================== *)
(** ** [FirestoreService]: what it sends and what it hands back           *)
(* ===================================================================== *)

(** A call of the Firestore SDK that writes. *)
Inductive FirestoreCall (V : Type) : Type :=
| SetDocCall (collectionName documentId : string) (data : gmap string V) (merge : bool)
| UpdateDocCall (collectionName documentId : string) (data : gmap string V)
| DeleteDocCall (collectionName documentId : string).
Arguments SetDocCall {V} collectionName documentId data merge.
Arguments UpdateDocCall {V} collectionName documentId data.
Arguments DeleteDocCall {V} collectionName documentId.

(** RxJS [map] on the single value of [from (promise)]. *)
Definition map_outcome {A B : Type} (f : A -> B) (o : Outcome A) : Outcome B :=
  match o with
  | Resolved a => Resolved (f a)
  | Rejected e => Rejected e
  end.

Section FirestoreService.

(** [DocumentData] is an object with fields of any kind: [gmap string V]
    for a type [V] of field values that holds the [serverTimestamp ()]
    sentinel and the strings. *)
Variable V : Type.
Variable timestampField : V.
Variable stringField : string -> V.

(** [{ ...a, ...b }]: the fields of [b] win. *)
Definition spread (a b : gmap string V) : gmap string V := b ∪ a.

(** [getDocument]: [snapshot] is what [getDoc] answers, the data of the
    document when it exists. *)
Definition getDocument (collectionName documentId : string)
  (snapshot : Outcome (option (gmap string V))) : Outcome (option (gmap string V)) :=
  map_outcome
    (fun snap =>
       match snap with
       | Some data => Some (spread {[ "id" := stringField documentId ]} data)
       | None => None
       end)
    snapshot.

(** [getCollection]: [snapshot] is [snapshot.docs], each with its id. *)
Definition getCollection (collectionName : string)
  (snapshot : Outcome (list (string * gmap string V))) : Outcome (list (gmap string V)) :=
  map_outcome
    (fun docs => map (fun d => spread {[ "id" := stringField (fst d) ]} (snd d)) docs)
    snapshot.

(** [addDocument]: [autoId] is the id [doc (collectionRef)] generates.  The
    call that is sent, and the observable's value from the call's answer. *)
Definition addDocument (collectionName autoId : string) (data : gmap string V)
  : FirestoreCall V * (Outcome unit -> Outcome string) :=
  let dataWithTimestamp :=
    spread data {[ "createdAt" := timestampField; "updatedAt" := timestampField ]} in
  (SetDocCall collectionName autoId dataWithTimestamp false,
   map_outcome (fun _ => autoId)).

Definition setDocument (collectionName documentId : string) (data : gmap string V)
  (merge : bool) : FirestoreCall V :=
  let dataWithTimestamp :=
    spread (spread data {[ "updatedAt" := timestampField ]})
      (if merge then ∅ else {[ "createdAt" := timestampField ]}) in
  SetDocCall collectionName documentId dataWithTimestamp merge.

Definition updateDocument (collectionName documentId : string) (data : gmap string V)
  : FirestoreCall V :=
  let dataWithTimestamp := spread data {[ "updatedAt" := timestampField ]} in
  UpdateDocCall collectionName documentId dataWithTimestamp.

Definition deleteDocument (collectionName documentId : string) : FirestoreCall V :=
  DeleteDocCall collectionName documentId.

Definition documentExists (collectionName documentId : string)
  (snapshot : Outcome (option (gmap string V))) : Outcome bool :=
  map_outcome (fun snap => truthy snap) snapshot.

End FirestoreService.

(* ===================================================================== *)
(** ** Concrete sessions and worlds used by the examples                  *)
(* ===================================================================== *)

Definition aliceIdentity : FirebaseUser.t :=
  {| FirebaseUser.uid := "u1"; FirebaseUser.email := Some "alice@example.org";
     FirebaseUser.emailVerified := true; FirebaseUser.displayName := Some "Alice";
     FirebaseUser.photoURL := None |}.

Definition aliceWith (rs : list UserRole) (ps : list string) : User.t :=
  {| User.uid := "u1"; User.email := "alice@example.org"; User.emailVerified := true;
     User.displayName := "Alice"; User.photoURL := None; User.roles := rs;
     User.permissions := ps; User.createdAt := Some (TimestampAt 1);
     User.updatedAt := Some (TimestampAt 1) |}.

(** A settled, authenticated session with the given roles and permissions. *)
Definition sessionOf (rs : list UserRole) (ps : list string) : AuthService :=
  {| currentUser := Some (aliceWith rs ps); firebaseUser := Some aliceIdentity;
     loading := false; authError := None |}.

(** A settled session with nobody signed in. *)
Definition anonymousSession : AuthService :=
  {| currentUser := None; firebaseUser := None; loading := false; authError := None |}.

Definition routeWith (rs : option (list UserRole)) (ps : option (list string))
  (ra : option bool) : ActivatedRouteSnapshot :=
  {| data := {| roles := rs; permissions := ps; requireAll := ra |} |}.

(** The redirects the guards produce. *)
Definition toLogin : GuardResult := redirect (createUrlTree ["/login"] []).
Definition toUnauthorized : GuardResult := redirect (createUrlTree ["/unauthorized"] []).
Definition toLoginReturning (returnUrl : string) : GuardResult :=
  redirect (createUrlTree ["/login"] [("returnUrl", returnUrl)]).

(** The strings [handleAuthError] holds itself: one per known code, and
    the fallback of the default branch. *)
Definition fixedMessages : list string :=
  [ "No account found with this email address.";
    "Incorrect password. Please try again.";
    "Invalid email or password. Please try again.";
    "An account with this email already exists.";
    "Password should be at least 6 characters.";
    "Please enter a valid email address.";
    "Too many failed attempts. Please try again later.";
    "Sign-in popup was closed. Please try again.";
    "An error occurred. Please try again." ].

(** The codes [handleAuthError] has a case for. *)
Definition knownCodes : list string :=
  [ "auth/user-not-found"; "auth/wrong-password"; "auth/invalid-credential";
    "auth/email-already-in-use"; "auth/weak-password"; "auth/invalid-email";
    "auth/too-many-requests"; "auth/popup-closed-by-user" ].

Definition wrongPassword : JsError :=
  {| code := Some "auth/wrong-password";
     message := Some "Firebase: Error (auth/wrong-password)." |}.

Definition networkFailure : JsError :=
  {| code := Some "auth/network-request-failed";
     message := Some "Firebase: Error (auth/network-request-failed)." |}.

Definition permissionDenied : JsError :=
  {| code := Some "permission-denied";
     message := Some "Missing or insufficient permissions." |}.

(** A Firebase in which every call succeeds and the identity is Alice. *)
Definition firebaseOk : Firebase :=
  {| auth_signIn := fun _ _ => Resolved aliceIdentity;
     auth_createUser := fun _ _ => Resolved aliceIdentity;
     auth_signOut := Resolved tt;
     auth_updateProfile := fun _ _ => Resolved tt;
     auth_sendEmailVerification := fun _ => Resolved tt;
     getDoc_error := fun _ => None;
     setDoc_error := fun _ => None;
     updateDoc_error := fun _ => None |}.

(** As [firebaseOk], but [signOut] is rejected. *)
Definition firebaseSignOutFails : Firebase :=
  {| auth_signIn := auth_signIn firebaseOk;
     auth_createUser := auth_createUser firebaseOk;
     auth_signOut := Rejected networkFailure;
     auth_updateProfile := auth_updateProfile firebaseOk;
     auth_sendEmailVerification := auth_sendEmailVerification firebaseOk;
     getDoc_error := getDoc_error firebaseOk;
     setDoc_error := setDoc_error firebaseOk;
     updateDoc_error := updateDoc_error firebaseOk |}.

(** As [firebaseOk], but the verification e-mail cannot be sent. *)
Definition firebaseVerificationFails : Firebase :=
  {| auth_signIn := auth_signIn firebaseOk;
     auth_createUser := auth_createUser firebaseOk;
     auth_signOut := auth_signOut firebaseOk;
     auth_updateProfile := auth_updateProfile firebaseOk;
     auth_sendEmailVerification := fun _ => Rejected networkFailure;
     getDoc_error := getDoc_error firebaseOk;
     setDoc_error := setDoc_error firebaseOk;
     updateDoc_error := updateDoc_error firebaseOk |}.

(** As [firebaseOk], but reading a profile is refused. *)
Definition firebaseFetchFails : Firebase :=
  {| auth_signIn := auth_signIn firebaseOk;
     auth_createUser := auth_createUser firebaseOk;
     auth_signOut := auth_signOut firebaseOk;
     auth_updateProfile := auth_updateProfile firebaseOk;
     auth_sendEmailVerification := auth_sendEmailVerification firebaseOk;
     getDoc_error := fun _ => Some permissionDenied;
     setDoc_error := setDoc_error firebaseOk;
     updateDoc_error := updateDoc_error firebaseOk |}.

(** As [firebaseOk], but signing in is rejected with the given error. *)
Definition firebaseSignInFails (e : JsError) : Firebase :=
  {| auth_signIn := fun _ _ => Rejected e;
     auth_createUser := auth_createUser firebaseOk;
     auth_signOut := auth_signOut firebaseOk;
     auth_updateProfile := auth_updateProfile firebaseOk;
     auth_sendEmailVerification := auth_sendEmailVerification firebaseOk;
     getDoc_error := getDoc_error firebaseOk;
     setDoc_error := setDoc_error firebaseOk;
     updateDoc_error := updateDoc_error firebaseOk |}.

(** Alice's stored profile, with the given role and permission fields. *)
Definition aliceRecord (rs : option (list UserRole)) (ps : option (list string))
  : UserProfile.t :=
  {| UserProfile.email := "alice@example.org"; UserProfile.displayName := "Alice";
     UserProfile.photoURL := None; UserProfile.roles := rs; UserProfile.permissions := ps;
     UserProfile.createdAt := Some (TimestampAt 1);
     UserProfile.updatedAt := Some (TimestampAt 1);
     UserProfile.lastLoginAt := None |}.

(** A world with the given session and stored profiles, and no effect yet. *)
Definition worldOf (s : AuthService) (docs : gmap string UserProfile.t) : World :=
  {| svc := s; users := docs; trace := [] |}.

(** The application right after start: the listener has not run yet. *)
Definition startWorld (docs : gmap string UserProfile.t) : World :=
  worldOf initialAuthService docs.

(** Field values for the examples of [FirestoreService]. *)
Inductive FieldValue : Type :=
| TimestampValue (t : Timestamp)
| StringValue (s : string)
| NumberValue (n : nat).

(** A stored profile world: Alice's record with the given fields. *)
Definition aliceStored (rs : option (list UserRole)) (ps : option (list string))
  : gmap string UserProfile.t :=
  {[ "u1" := aliceRecord rs ps ]}.

Definition emailInUse : JsError :=
  {| code := Some "auth/email-already-in-use";
     message := Some "Firebase: Error (auth/email-already-in-use)." |}.

(** As [firebaseOk], but the account cannot be created. *)
Definition firebaseEmailInUse : Firebase :=
  {| auth_signIn := auth_signIn firebaseOk;
     auth_createUser := fun _ _ => Rejected emailInUse;
     auth_signOut := auth_signOut firebaseOk;
     auth_updateProfile := auth_updateProfile firebaseOk;
     auth_sendEmailVerification := auth_sendEmailVerification firebaseOk;
     getDoc_error := getDoc_error firebaseOk;
     setDoc_error := setDoc_error firebaseOk;
     updateDoc_error := updateDoc_error firebaseOk |}.

(** As [firebaseOk], but an existing profile cannot be updated. *)
Definition firebaseUpdateFails : Firebase :=
  {| auth_signIn := auth_signIn firebaseOk;
     auth_createUser := auth_createUser firebaseOk;
     auth_signOut := auth_signOut firebaseOk;
     auth_updateProfile := auth_updateProfile firebaseOk;
     auth_sendEmailVerification := auth_sendEmailVerification firebaseOk;
     getDoc_error := getDoc_error firebaseOk;
     setDoc_error := setDoc_error firebaseOk;
     updateDoc_error := fun _ => Some permissionDenied |}.

Example roleGuard_admin_route_moderator :
  roleGuard (routeWith (Some [admin]) None (Some false)) (sessionOf [moderator] ["read"])
  = toUnauthorized.
Proof. reflexivity. Qed.

Example roleGuard_admin_route_admin_user :
  roleGuard (routeWith (Some [admin]) None (Some false)) (sessionOf [admin; user] ["read"])
  = allow.
Proof. reflexivity. Qed.

Example authMatchGuard_returnUrl :
  authMatchGuard [mkSegment "admin" []; mkSegment "users" []] anonymousSession
  = toLoginReturning "/admin/users".
Proof. reflexivity. Qed.

(* ===================================================================== *)
(** ** Derived queries                                                    *)
(* ===================================================================== *)

Lemma includes_In {A : Type} `{EqDecision A} (l : list A) (x : A) :
  includes l x = true <-> In x l.
Proof.
  unfold includes. rewrite existsb_exists. split.
  - intros (y & Hy & Heq). apply bool_decide_eq_true in Heq. now subst.
  - intros Hx. exists x. split; [assumption | now apply bool_decide_eq_true].
Qed.

Lemma hasRole_In (s : AuthService) (r : UserRole) :
  hasRole s r = true <-> In r (userRoles s).
Proof. apply includes_In. Qed.

Lemma hasPermission_In (s : AuthService) (p : string) :
  hasPermission s p = true <-> In p (userPermissions s).
Proof. apply includes_In. Qed.

Lemma hasAnyRole_Exists (s : AuthService) (rs : list UserRole) :
  hasAnyRole s rs = true <-> Exists (fun r => In r (userRoles s)) rs.
Proof.
  unfold hasAnyRole, some. rewrite existsb_exists, List.Exists_exists.
  split; intros (r & Hr & Hs); exists r; (split; [assumption | now apply hasRole_In]).
Qed.

Lemma hasAllRoles_Forall (s : AuthService) (rs : list UserRole) :
  hasAllRoles s rs = true <-> Forall (fun r => In r (userRoles s)) rs.
Proof.
  unfold hasAllRoles, every. rewrite forallb_forall, List.Forall_forall.
  split; intros Hall r Hr; apply hasRole_In; now apply Hall.
Qed.

Lemma hasAnyPermission_Exists (s : AuthService) (ps : list string) :
  hasAnyPermission s ps = true <-> Exists (fun p => In p (userPermissions s)) ps.
Proof.
  unfold hasAnyPermission, some. rewrite existsb_exists, List.Exists_exists.
  split; intros (p & Hp & Hs); exists p; (split; [assumption | now apply hasPermission_In]).
Qed.

Lemma some_nil_false {A : Type} (p : A -> bool) (l : list A) :
  (forall x, p x = false) -> some l p = false.
Proof.
  intros Hp. unfold some. induction l as [| x l IH]; simpl; [reflexivity |].
  now rewrite Hp, IH.
Qed.

(** C10. With no profile in the session ([currentUser] is null) the role
    and permission lists are empty, [hasRole], [hasAnyRole],
    [hasPermission] and [hasAnyPermission] answer false for every
    argument, and [hasAllRoles rs] answers true exactly when [rs] is
    empty. *)
Theorem no_profile_queries_negative (s : AuthService) :
  currentUser s = None ->
  userRoles s = [] /\
  userPermissions s = [] /\
  (forall r, hasRole s r = false) /\
  (forall rs, hasAnyRole s rs = false) /\
  (forall p, hasPermission s p = false) /\
  (forall ps, hasAnyPermission s ps = false) /\
  (forall rs, hasAllRoles s rs = true <-> rs = []).
Proof.
  intros Hnone.
  assert (Hr : userRoles s = []) by (unfold userRoles; now rewrite Hnone).
  assert (Hp : userPermissions s = []) by (unfold userPermissions; now rewrite Hnone).
  assert (HhasRole : forall r, hasRole s r = false)
    by (intros r; unfold hasRole; now rewrite Hr).
  assert (HhasPerm : forall p, hasPermission s p = false)
    by (intros p; unfold hasPermission; now rewrite Hp).
  repeat split; try assumption.
  - intros rs. now apply some_nil_false.
  - intros ps. now apply some_nil_false.
  - destruct rs as [| r rs]; [reflexivity |].
    unfold hasAllRoles, every. simpl. rewrite HhasRole. discriminate.
  - intros ->. reflexivity.
Qed.

Lemma no_profile_queries_negative_witness :
  userRoles anonymousSession = [] /\ hasAllRoles anonymousSession [admin] <> true.
Proof.
  destruct (no_profile_queries_negative anonymousSession eq_refl)
    as (Hr & _ & _ & _ & _ & _ & Hall).
  split; [exact Hr |].
  intros H. apply Hall in H. discriminate H.
Defined.

(* ===================================================================== *)
(** ** The role guard and the guard factories                             *)
(* ===================================================================== *)

(** What [roleGuard] computes once the session is authenticated and the
    required list is not empty. *)
Lemma roleGuard_checked (rs : list UserRole) ps ra (s : AuthService) :
  isAuthenticated s = true -> rs <> [] ->
  roleGuard (routeWith (Some rs) ps ra) s =
    if (if nullish ra false then hasAllRoles s rs else hasAnyRole s rs)
    then allow else toUnauthorized.
Proof.
  intros Hauth Hne. unfold roleGuard. rewrite Hauth. simpl.
  destruct rs as [| r rs]; [congruence | reflexivity].
Qed.

(** C1. The role guard: an unauthenticated session is sent to '/login'; an
    authenticated one passes when the route names no role (absent or empty
    list, whatever [requireAll] is); otherwise it passes exactly when
    [requireAll] is true and every required role is held, or [requireAll]
    is false (or absent) and some required role is held, and is sent to
    '/unauthorized' when it does not pass.  With the required roles
    {admin} and [requireAll] false, a session holding exactly {moderator}
    is sent to '/unauthorized' and one holding exactly {admin, user}
    passes. *)
Theorem roleGuard_decision
  (rs : option (list UserRole)) (ps : option (list string)) (ra : option bool)
  (s : AuthService) :
  (isAuthenticated s = false -> roleGuard (routeWith rs ps ra) s = toLogin) /\
  (isAuthenticated s = true -> rs = None \/ rs = Some [] ->
   roleGuard (routeWith rs ps ra) s = allow) /\
  (forall required,
     isAuthenticated s = true -> rs = Some required -> required <> [] ->
     (roleGuard (routeWith rs ps ra) s = allow <->
        (ra = Some true /\ Forall (fun r => In r (userRoles s)) required) \/
        (ra <> Some true /\ Exists (fun r => In r (userRoles s)) required)) /\
     (roleGuard (routeWith rs ps ra) s <> allow ->
      roleGuard (routeWith rs ps ra) s = toUnauthorized)) /\
  (isAuthenticated s = true -> ra <> Some true ->
   ((forall r, In r (userRoles s) <-> r = moderator) ->
    roleGuard (routeWith (Some [admin]) ps ra) s = toUnauthorized) /\
   ((forall r, In r (userRoles s) <-> r = admin \/ r = user) ->
    roleGuard (routeWith (Some [admin]) ps ra) s = allow)).
Proof.
  repeat split.
  - intros Hauth. unfold roleGuard. now rewrite Hauth.
  - intros Hauth [-> | ->]; unfold roleGuard; now rewrite Hauth.
  - intros Hallow. subst rs. rewrite roleGuard_checked in Hallow by assumption.
    destruct ra as [[|]|]; simpl in Hallow.
    + left. split; [reflexivity |]. apply hasAllRoles_Forall.
      destruct (hasAllRoles s required); [reflexivity | discriminate].
    + right. split; [discriminate |]. apply hasAnyRole_Exists.
      destruct (hasAnyRole s required); [reflexivity | discriminate].
    + right. split; [discriminate |]. apply hasAnyRole_Exists.
      destruct (hasAnyRole s required); [reflexivity | discriminate].
  - intros Hcase. subst rs. rewrite roleGuard_checked by assumption.
    destruct Hcase as [[-> Hall] | [Hra Hany]].
    + apply hasAllRoles_Forall in Hall. simpl. now rewrite Hall.
    + apply hasAnyRole_Exists in Hany.
      destruct ra as [[|]|]; [congruence | |]; simpl; now rewrite Hany.
  - intros Hdenied. subst rs. rewrite roleGuard_checked in * by assumption.
    destruct (if nullish ra false then hasAllRoles s required else hasAnyRole s required);
      [congruence | reflexivity].
  - intros Hroles. rewrite roleGuard_checked by (assumption || discriminate).
    assert (Hany : hasAnyRole s [admin] = false).
    { destruct (hasAnyRole s [admin]) eqn:E; [| reflexivity].
      apply hasAnyRole_Exists in E. inversion E as [? ? Hin | ? ? Hin]; subst.
      - apply Hroles in Hin. discriminate.
      - inversion Hin. }
    destruct ra as [[|]|]; [congruence | |]; unfold nullish; now rewrite Hany.
  - intros Hroles. rewrite roleGuard_checked by (assumption || discriminate).
    assert (Hany : hasAnyRole s [admin] = true).
    { apply hasAnyRole_Exists. constructor. apply Hroles. now left. }
    destruct ra as [[|]|]; [congruence | |]; unfold nullish; now rewrite Hany.
Qed.

Lemma roleGuard_decision_witness :
  roleGuard (routeWith (Some [admin]) None (Some false)) (sessionOf [moderator] ["read"])
    = toUnauthorized /\
  roleGuard (routeWith (Some [admin]) None (Some false)) (sessionOf [admin; user] ["read"])
    = allow /\
  roleGuard (routeWith (Some []) None (Some true)) (sessionOf [guest] []) = allow /\
  roleGuard (routeWith (Some [admin]) None None) anonymousSession = toLogin.
Proof.
  split; [| split; [| split]].
  - apply (roleGuard_decision (Some [admin]) None (Some false)
             (sessionOf [moderator] ["read"])); [reflexivity | discriminate |].
    intros r. simpl. split; [intros [H | []]; now subst | intros ->; now left].
  - apply (roleGuard_decision (Some [admin]) None (Some false)
             (sessionOf [admin; user] ["read"])); [reflexivity | discriminate |].
    intros r. simpl. split.
    + intros [H | [H | []]]; subst; [now left | now right].
    + intros [-> | ->]; [now left | right; now left].
  - apply (roleGuard_decision (Some []) None (Some true) (sessionOf [guest] []));
      [reflexivity | now right].
  - apply (roleGuard_decision (Some [admin]) None None anonymousSession). reflexivity.
Defined.

(** C9, as stated, fails on the empty list: [requireRoles ()] sends an
    authenticated session to '/unauthorized', while the role guard given
    the same (empty) list and [requireAll] false lets it pass. *)
Lemma factory_guard_empty_list_differs :
  requireRoles [] (routeWith None None None) (sessionOf [user] ["read"])
  <> roleGuard (routeWith (Some []) None (Some false)) (sessionOf [user] ["read"]).
Proof. discriminate. Qed.

(** C9, amended. The factory guards never look at the route; for every
    non-empty list they decide as the role guard, respectively the
    permission guard, does for a route carrying that list with
    [requireAll] false (or absent), '/login' for unauthenticated sessions
    included; for the empty list they send every authenticated session to
    '/unauthorized'. *)
Theorem factory_guards_any_match (s : AuthService) :
  (forall rs route route', requireRoles rs route s = requireRoles rs route' s) /\
  (forall ps route route', requirePermissions ps route s = requirePermissions ps route' s) /\
  (forall rs route ps ra,
     rs <> [] -> ra <> Some true ->
     requireRoles rs route s = roleGuard (routeWith (Some rs) ps ra) s) /\
  (forall ps route rs ra,
     ps <> [] -> ra <> Some true ->
     requirePermissions ps route s = permissionGuard (routeWith rs (Some ps) ra) s) /\
  (forall rs ps route,
     isAuthenticated s = false ->
     requireRoles rs route s = toLogin /\ requirePermissions ps route s = toLogin) /\
  (forall route,
     isAuthenticated s = true ->
     requireRoles [] route s = toUnauthorized /\
     requirePermissions [] route s = toUnauthorized).
Proof.
  repeat split.
  - intros rs route ps ra Hne Hra. unfold requireRoles, roleGuard. simpl.
    destruct (isAuthenticated s); simpl; [| reflexivity].
    destruct rs as [| r rs]; [congruence |].
    destruct ra as [[|]|]; [congruence | reflexivity | reflexivity].
  - intros ps route rs ra Hne Hra. unfold requirePermissions, permissionGuard. simpl.
    destruct (isAuthenticated s); simpl; [| reflexivity].
    destruct ps as [| p ps]; [congruence |].
    destruct ra as [[|]|]; [congruence | reflexivity | reflexivity].
  - unfold requireRoles. now rewrite H.
  - unfold requirePermissions. now rewrite H.
  - unfold requireRoles. now rewrite H.
  - unfold requirePermissions. now rewrite H.
Qed.

Lemma factory_guards_any_match_witness :
  requireRoles [admin; moderator] (routeWith None None None) (sessionOf [moderator] ["read"])
  = roleGuard (routeWith (Some [admin; moderator]) None (Some false))
      (sessionOf [moderator] ["read"]) /\
  requirePermissions ["write"] (routeWith None None None) anonymousSession = toLogin /\
  requireRoles [] (routeWith None None None) (sessionOf [admin] ["read"]) = toUnauthorized.
Proof.
  split; [| split].
  - apply (factory_guards_any_match (sessionOf [moderator] ["read"])); discriminate.
  - apply (factory_guards_any_match anonymousSession) with (rs := []). reflexivity.
  - apply (factory_guards_any_match (sessionOf [admin] ["read"])). reflexivity.
Defined.

(* ===================================================================== *)
(** ** The authentication guards                                          *)
(* ===================================================================== *)

(** The rule both authentication guards apply to a settled session. *)
Lemma checkAuth_first_settled (settled : AuthService -> GuardResult)
  (waiting : list AuthService) (s : AuthService) (later : list AuthService) :
  Forall (fun t => isLoading t = true) waiting ->
  isLoading s = false ->
  checkAuth settled (waiting ++ s :: later) = Some (settled s).
Proof.
  intros Hwait Hs. induction Hwait as [| t waiting Ht _ IH]; simpl.
  - now rewrite Hs.
  - now rewrite Ht.
Qed.

Lemma checkAuth_all_loading (settled : AuthService -> GuardResult)
  (ticks : list AuthService) :
  Forall (fun t => isLoading t = true) ticks ->
  checkAuth settled ticks = None.
Proof.
  intros Hwait. induction Hwait as [| t ticks Ht _ IH]; simpl; [reflexivity |].
  now rewrite Ht.
Qed.

(** A promise that resolved stays resolved: later runs of the interval do
    not change the answer. *)
Lemma checkAuth_stable (settled : AuthService -> GuardResult)
  (ticks more : list AuthService) (r : GuardResult) :
  checkAuth settled ticks = Some r -> checkAuth settled (ticks ++ more) = Some r.
Proof.
  induction ticks as [| t ticks IH]; simpl; [discriminate |].
  destruct (negb (isLoading t)); [trivial | exact IH].
Qed.

(** C2. The authentication-required guard.  On a settled session it
    answers at once: allow exactly when authenticated, otherwise a
    redirect to '/login' with [returnUrl] the requested url.  On a loading
    session it gives no answer while the polled session is still loading,
    and at the first poll that finds it settled it answers by the same
    rule, applied to the session seen then. *)
Theorem authGuard_waits_then_decides
  (route : ActivatedRouteSnapshot) (state : RouterStateSnapshot)
  (s : AuthService) (ticks : list AuthService) :
  (isLoading s = false ->
   (isAuthenticated s = true -> authGuard route state s ticks = Some allow) /\
   (isAuthenticated s = false ->
    authGuard route state s ticks = Some (toLoginReturning (url state))) /\
   (authGuard route state s ticks = Some allow <-> isAuthenticated s = true)) /\
  (isLoading s = true ->
   (Forall (fun t => isLoading t = true) ticks -> authGuard route state s ticks = None) /\
   (forall waiting s' later,
      ticks = (waiting ++ s' :: later)%list ->
      Forall (fun t => isLoading t = true) waiting ->
      isLoading s' = false ->
      authGuard route state s ticks = authGuard route state s' [] /\
      (isAuthenticated s' = true -> authGuard route state s ticks = Some allow) /\
      (isAuthenticated s' = false ->
       authGuard route state s ticks = Some (toLoginReturning (url state))))).
Proof.
  split.
  - intros Hsettled. unfold authGuard. rewrite Hsettled.
    destruct (isAuthenticated s); repeat split; try congruence; discriminate.
  - intros Hloading. split.
    + intros Hall. unfold authGuard. rewrite Hloading. now apply checkAuth_all_loading.
    + intros waiting s' later -> Hwait Hs'.
      unfold authGuard. rewrite Hloading, Hs'.
      rewrite checkAuth_first_settled by assumption.
      destruct (isAuthenticated s'); repeat split; congruence.
Qed.

Lemma authGuard_waits_then_decides_witness :
  authGuard (routeWith None None None) (mkState "/dashboard") initialAuthService
    [initialAuthService; initialAuthService; anonymousSession; sessionOf [user] ["read"]]
  = Some (toLoginReturning "/dashboard") /\
  authGuard (routeWith None None None) (mkState "/dashboard") initialAuthService
    [initialAuthService; initialAuthService] = None /\
  authGuard (routeWith None None None) (mkState "/dashboard") (sessionOf [user] ["read"]) []
  = Some allow.
Proof.
  split; [| split].
  - apply (authGuard_waits_then_decides (routeWith None None None) (mkState "/dashboard")
             initialAuthService
             [initialAuthService; initialAuthService; anonymousSession;
              sessionOf [user] ["read"]])
      with (waiting := [initialAuthService; initialAuthService])
           (s' := anonymousSession) (later := [sessionOf [user] ["read"]]);
      try reflexivity.
    repeat constructor.
  - apply (authGuard_waits_then_decides (routeWith None None None) (mkState "/dashboard")
             initialAuthService [initialAuthService; initialAuthService]);
      [reflexivity | repeat constructor].
  - apply (authGuard_waits_then_decides (routeWith None None None) (mkState "/dashboard")
             (sessionOf [user] ["read"]) []); reflexivity.
Defined.

(** On a settled session the lazy-module guard decides as the
    authentication-required guard does; its [returnUrl] is rebuilt from the
    segments, so the redirects coincide when the requested url is that
    path. *)
Lemma authMatchGuard_settled_agrees
  (route : ActivatedRouteSnapshot) (state : RouterStateSnapshot)
  (segments : list UrlSegment) (s : AuthService) (ticks : list AuthService) :
  isLoading s = false ->
  url state = "/" ++ join "/" (map path segments) ->
  authGuard route state s ticks = Some (authMatchGuard segments s).
Proof.
  intros Hsettled Hurl. unfold authGuard, authMatchGuard. rewrite Hsettled, Hurl.
  now destruct (isAuthenticated s).
Qed.

(** C6 at the failing input: the application has just started (the
    session is loading, no profile yet) and the provider then restores an
    authenticated session.  The authentication-required guard waits and
    allows; the lazy-module guard does not wait and redirects to
    '/login'. *)
Theorem authMatchGuard_does_not_wait :
  authGuard (routeWith None None None) (mkState "/admin") initialAuthService
    [initialAuthService; sessionOf [admin] ["read"]] = Some allow /\
  authMatchGuard [mkSegment "admin" []] initialAuthService = toLoginReturning "/admin".
Proof. split; reflexivity. Qed.

(* ===================================================================== *)
(** ** Running the service                                                *)
(* ===================================================================== *)

Ltac unfold_signals :=
  unfold set_currentUser, set_firebaseUser, set_loading, set_authError,
    update_currentUser, get_svc, console_error, navigate, emit, with_svc, of_outcome.

Ltac unfold_async :=
  unfold run, subscribe, catchError, tap, switchMap, from, of_, throwError,
    try_catch, then_, resolve, reject.

Ltac unfold_sdk :=
  unfold signInWithEmailAndPassword, createUserWithEmailAndPassword, signOut,
    updateProfile, sendEmailVerification, getDoc, setDoc, updateDoc.

Ltac run_service :=
  unfold_async; unfold_sdk; unfold_signals; unfold_async; simpl.

(** *** [logout] *)

(** C3, as stated, fails: when the provider's sign-out is rejected, a
    signed-in session is still authenticated after [logout ()]. *)
Lemma logout_failure_keeps_session :
  isAuthenticated
    (svc (snd (run (logout firebaseSignOutFails)
                 (worldOf (sessionOf [user] ["read"]) ∅)))) = true.
Proof. reflexivity. Qed.

(** C3, amended. [logout ()] never reports a failure.  When the provider's
    sign-out succeeds, the current user and the raw identity are cleared,
    so [isAuthenticated ()] is false afterwards, and the router is sent to
    '/login'.  When the sign-out is rejected, the error is logged and
    swallowed and the session is left as it was. *)
Theorem logout_clears_when_signed_out (fb : Firebase) (w : World) :
  fst (run (logout fb) w) = Resolved tt /\
  (auth_signOut fb = Resolved tt ->
   currentUser (svc (snd (run (logout fb) w))) = None /\
   firebaseUser (svc (snd (run (logout fb) w))) = None /\
   isAuthenticated (svc (snd (run (logout fb) w))) = false /\
   trace (snd (run (logout fb) w)) = (trace w ++ [SignOut; Navigate ["/login"]])%list) /\
  (forall e, auth_signOut fb = Rejected e ->
   svc (snd (run (logout fb) w)) = svc w /\
   isAuthenticated (svc (snd (run (logout fb) w))) = isAuthenticated (svc w) /\
   trace (snd (run (logout fb) w))
     = (trace w ++ [SignOut; ConsoleError "Logout error:" e])%list).
Proof.
  unfold logout. run_service.
  destruct (auth_signOut fb) as [[] | e0]; simpl.
  - split; [reflexivity |]. split; [| discriminate].
    intros _. rewrite <- !app_assoc. repeat split.
  - split; [reflexivity |]. split; [discriminate |].
    intros e [= ->]. rewrite <- !app_assoc. destruct (svc w). repeat split.
Qed.

Lemma logout_clears_when_signed_out_witness :
  isAuthenticated
    (svc (snd (run (logout firebaseOk) (worldOf (sessionOf [user] ["read"]) ∅)))) = false /\
  svc (snd (run (logout firebaseSignOutFails) (worldOf (sessionOf [user] ["read"]) ∅)))
    = sessionOf [user] ["read"].
Proof.
  split.
  - apply (logout_clears_when_signed_out firebaseOk
             (worldOf (sessionOf [user] ["read"]) ∅)).
    reflexivity.
  - apply (logout_clears_when_signed_out firebaseSignOutFails
             (worldOf (sessionOf [user] ["read"]) ∅) ) with (e := networkFailure).
    reflexivity.
Defined.

(** *** The listener: reconciliation of a provider push event *)

(** C4, as stated, fails: when the profile fetch is refused, the raw
    provider identity is still in the session afterwards, and no error
    message is stored in [authError]. *)
Lemma reconciliation_failure_keeps_identity :
  firebaseUser
    (svc (snd (onAuthStateChanged firebaseFetchFails (Some aliceIdentity) (startWorld ∅))))
    = Some aliceIdentity /\
  authError
    (svc (snd (onAuthStateChanged firebaseFetchFails (Some aliceIdentity) (startWorld ∅))))
    = None.
Proof. split; reflexivity. Qed.

(** C4, amended. When the reconciliation of a push event carrying an
    identity raises an exception (the fetch fails, or the profile is
    absent and its creation fails), the session fails closed: the profile
    becomes null, [isAuthenticated ()] is false and loading is over, so no
    partial or stale profile is surfaced.  The raw provider identity stays
    the one of the event, the error is logged on the console, [authError]
    is left as it was, and nothing is stored. *)
Theorem reconciliation_failure_fails_closed
  (fb : Firebase) (w : World) (fu : FirebaseUser.t) (e : JsError) :
  getDoc_error fb (FirebaseUser.uid fu) = Some e \/
  (getDoc_error fb (FirebaseUser.uid fu) = None /\
   users w !! FirebaseUser.uid fu = None /\
   setDoc_error fb (FirebaseUser.uid fu) = Some e) ->
  fst (onAuthStateChanged fb (Some fu) w) = Resolved tt /\
  currentUser (svc (snd (onAuthStateChanged fb (Some fu) w))) = None /\
  firebaseUser (svc (snd (onAuthStateChanged fb (Some fu) w))) = Some fu /\
  isAuthenticated (svc (snd (onAuthStateChanged fb (Some fu) w))) = false /\
  loading (svc (snd (onAuthStateChanged fb (Some fu) w))) = false /\
  authError (svc (snd (onAuthStateChanged fb (Some fu) w))) = authError (svc w) /\
  users (snd (onAuthStateChanged fb (Some fu) w)) = users w /\
  trace (snd (onAuthStateChanged fb (Some fu) w))
    = (trace w ++ [ConsoleError "Error fetching user profile:" e])%list.
Proof.
  intros Hraise. unfold onAuthStateChanged, getUserProfile, createUserProfile.
  run_service.
  destruct Hraise as [Hget | (Hget & Habsent & Hset)].
  - rewrite Hget. simpl. repeat split.
  - rewrite Hget, Habsent. simpl. rewrite Hset. simpl. repeat split.
Qed.

Lemma reconciliation_failure_fails_closed_witness :
  isAuthenticated
    (svc (snd (onAuthStateChanged firebaseFetchFails (Some aliceIdentity) (startWorld ∅))))
    = false /\
  trace (snd (onAuthStateChanged firebaseFetchFails (Some aliceIdentity) (startWorld ∅)))
    = [ConsoleError "Error fetching user profile:" permissionDenied].
Proof.
  pose proof (reconciliation_failure_fails_closed firebaseFetchFails (startWorld ∅)
                aliceIdentity permissionDenied (or_introl eq_refl))
    as (_ & _ & _ & Hauth & _ & _ & _ & Htrace).
  split; [exact Hauth | exact Htrace].
Defined.

(** The hypothesis of the theorem above covers every way the listener's
    [try] block can throw: a push event carrying an identity either ends
    with an adopted profile or is one of those failures. *)
Lemma reconciliation_adopts_or_fails (fb : Firebase) (w : World) (fu : FirebaseUser.t) :
  (exists u,
     currentUser (svc (snd (onAuthStateChanged fb (Some fu) w))) = Some u /\
     isAuthenticated (svc (snd (onAuthStateChanged fb (Some fu) w))) = true) \/
  (exists e,
     getDoc_error fb (FirebaseUser.uid fu) = Some e \/
     (getDoc_error fb (FirebaseUser.uid fu) = None /\
      users w !! FirebaseUser.uid fu = None /\
      setDoc_error fb (FirebaseUser.uid fu) = Some e)).
Proof.
  unfold onAuthStateChanged, getUserProfile, createUserProfile. run_service.
  destruct (getDoc_error fb (FirebaseUser.uid fu)) as [e |] eqn:Hget; simpl.
  - right. exists e. now left.
  - destruct (users w !! FirebaseUser.uid fu) as [data |] eqn:Hdoc; simpl.
    + left. eexists. split; reflexivity.
    + destruct (setDoc_error fb (FirebaseUser.uid fu)) as [e |] eqn:Hset; simpl.
      * right. exists e. right. repeat split.
      * left. eexists. split; reflexivity.
Qed.

(** The listener always ends the loading phase, whatever the event and
    whatever Firebase answers. *)
Lemma onAuthStateChanged_settles (fb : Firebase) (w : World)
  (event : option FirebaseUser.t) :
  fst (onAuthStateChanged fb event w) = Resolved tt /\
  loading (svc (snd (onAuthStateChanged fb event w))) = false /\
  firebaseUser (svc (snd (onAuthStateChanged fb event w))) = event.
Proof.
  unfold onAuthStateChanged, getUserProfile, createUserProfile. run_service.
  destruct event as [fu |]; simpl; [| repeat split].
  destruct (getDoc_error fb (FirebaseUser.uid fu)); simpl; [repeat split |].
  destruct (users w !! FirebaseUser.uid fu); simpl; [repeat split |].
  destruct (setDoc_error fb (FirebaseUser.uid fu)); simpl; repeat split.
Qed.

(** *** [register] *)




(** When every call succeeds, [register] creates the profile record with
    the default role and permission and adopts it. *)
Lemma register_success
  (fb : Firebase) (email password displayName : string) (w : World)
  (fu : FirebaseUser.t) :
  auth_createUser fb email password = Resolved fu ->
  auth_updateProfile fb fu displayName = Resolved tt ->
  auth_sendEmailVerification fb fu = Resolved tt ->
  setDoc_error fb (FirebaseUser.uid fu) = None ->
  exists u data,
    fst (run (register fb email password displayName) w) = Resolved u /\
    currentUser (svc (snd (run (register fb email password displayName) w))) = Some u /\
    User.roles u = [user] /\ User.permissions u = ["read"] /\
    users (snd (run (register fb email password displayName) w)) !! FirebaseUser.uid fu
      = Some data /\
    UserProfile.roles data = Some [user] /\ UserProfile.permissions data = Some ["read"] /\
    loading (svc (snd (run (register fb email password displayName) w))) = false.
Proof.
  intros Hcreate Hname Hmail Hset.
  unfold register, createUserProfile, handleAuthError. run_service.
  rewrite Hcreate. simpl. rewrite Hname. simpl. rewrite Hmail. simpl.
  rewrite Hset. simpl. eexists. eexists.
  rewrite lookup_insert_eq. repeat split.
Qed.

(** *** [login] and the classification of errors *)

Lemma authErrorMessage_known (e : JsError) (c : string) :
  code e = Some c -> In c knownCodes -> In (authErrorMessage e) fixedMessages.
Proof.
  intros Hcode Hknown. unfold authErrorMessage. rewrite Hcode.
  unfold knownCodes in Hknown. simpl in Hknown.
  repeat (destruct Hknown as [<- | Hknown]; [simpl; tauto |]).
  contradiction.
Qed.

Lemma authErrorMessage_unknown (e : JsError) :
  (forall c, code e = Some c -> ~ In c knownCodes) ->
  authErrorMessage e = or_else (message e) "An error occurred. Please try again.".
Proof.
  intros Hunknown. unfold authErrorMessage.
  destruct (code e) as [c |]; [| reflexivity].
  specialize (Hunknown c eq_refl).
  repeat match goal with
         | |- context [String.eqb c ?k] =>
             destruct (String.eqb_spec c k) as [-> | _];
             [exfalso; apply Hunknown; simpl; tauto |]
         end.
  reflexivity.
Qed.

Lemma authErrorMessage_wrong_password (e : JsError) :
  code e = Some "auth/wrong-password" ->
  authErrorMessage e = "Incorrect password. Please try again.".
Proof. intros Hcode. unfold authErrorMessage. now rewrite Hcode. Qed.

(** C7, as stated, fails: a login rejected with a code the service has no
    case for leaves the provider's raw message in [authError], which is
    none of the fixed strings. *)
Lemma login_failure_raw_message :
  authError
    (svc (snd (run (login (firebaseSignInFails networkFailure) "alice@example.org" "secret1")
                 (worldOf anonymousSession ∅))))
    = Some "Firebase: Error (auth/network-request-failed)." /\
  ~ In "Firebase: Error (auth/network-request-failed)." fixedMessages.
Proof.
  split; [reflexivity |]. unfold fixedMessages. simpl.
  intros H. repeat (destruct H as [H | H]; [discriminate H |]). exact H.
Qed.

(** The ways a login can fail, with the error of the step that failed. *)
Lemma login_failure_cause (fb : Firebase) (email password : string) (w : World)
  (e : JsError) :
  fst (run (login fb email password) w) = Rejected e ->
  exists cause,
    e = newError (authErrorMessage cause) /\
    (auth_signIn fb email password = Rejected cause \/
     exists fu,
       auth_signIn fb email password = Resolved fu /\
       (getDoc_error fb (FirebaseUser.uid fu) = Some cause \/
        (getDoc_error fb (FirebaseUser.uid fu) = None /\
         users w !! FirebaseUser.uid fu <> None /\
         updateDoc_error fb (FirebaseUser.uid fu) = Some cause) \/
        (getDoc_error fb (FirebaseUser.uid fu) = None /\
         users w !! FirebaseUser.uid fu = None /\
         setDoc_error fb (FirebaseUser.uid fu) = Some cause))).
Proof.
  unfold login, handleAuthSuccess, getUserProfile, createUserProfile, handleAuthError.
  run_service.
  destruct (auth_signIn fb email password) as [fu | e0]; simpl.
  - destruct (getDoc_error fb (FirebaseUser.uid fu)) as [e1 |] eqn:Hget; simpl.
    + intros [= <-]. exists e1. split; [reflexivity |].
      right. exists fu. split; [reflexivity |]. now left.
    + destruct (users w !! FirebaseUser.uid fu) as [data |] eqn:Hdoc; simpl.
      * destruct (updateDoc_error fb (FirebaseUser.uid fu)) as [e2 |] eqn:Hupd; simpl.
        -- intros [= <-]. exists e2. split; [reflexivity |].
           right. exists fu. split; [reflexivity |]. right. left.
           split; [assumption |]. split; [congruence | assumption].
        -- rewrite Hdoc. simpl. discriminate.
      * destruct (setDoc_error fb (FirebaseUser.uid fu)) as [e3 |] eqn:Hset; simpl.
        -- intros [= <-]. exists e3. split; [reflexivity |].
           right. exists fu. split; [reflexivity |]. right. right.
           repeat split; assumption.
        -- discriminate.
  - intros [= <-]. exists e0. split; [reflexivity |]. now left.
Qed.

(** What a login that fails with [cause] leaves behind: only loading and
    [authError] are written, and the sign-in is the only call. *)
Lemma login_run_failure (fb : Firebase) (email password : string) (w : World)
  (cause : JsError) :
  auth_signIn fb email password = Rejected cause \/
  (exists fu,
     auth_signIn fb email password = Resolved fu /\
     (getDoc_error fb (FirebaseUser.uid fu) = Some cause \/
      (getDoc_error fb (FirebaseUser.uid fu) = None /\
       users w !! FirebaseUser.uid fu <> None /\
       updateDoc_error fb (FirebaseUser.uid fu) = Some cause) \/
      (getDoc_error fb (FirebaseUser.uid fu) = None /\
       users w !! FirebaseUser.uid fu = None /\
       setDoc_error fb (FirebaseUser.uid fu) = Some cause))) ->
  run (login fb email password) w
  = (Rejected (newError (authErrorMessage cause)),
     {| svc := {| currentUser := currentUser (svc w);
                  firebaseUser := firebaseUser (svc w);
                  loading := false;
                  authError := Some (authErrorMessage cause) |};
        users := users w;
        trace := (trace w ++ [SignIn email password])%list |}).
Proof.
  unfold login, handleAuthSuccess, getUserProfile, createUserProfile, handleAuthError.
  run_service.
  intros [Hsign | (fu & Hsign & [Hget | [(Hget & Hdoc & Hupd) | (Hget & Hdoc & Hset)]])];
    rewrite Hsign; simpl.
  - reflexivity.
  - rewrite Hget. reflexivity.
  - rewrite Hget. simpl.
    destruct (users w !! FirebaseUser.uid fu) as [data |]; [| congruence].
    simpl. rewrite Hupd. reflexivity.
  - rewrite Hget. simpl. rewrite Hdoc. simpl. rewrite Hset. reflexivity.
Qed.

Lemma login_settles (fb : Firebase) (email password : string) (w : World) :
  loading (svc (snd (run (login fb email password) w))) = false.
Proof.
  unfold login, handleAuthSuccess, getUserProfile, createUserProfile, handleAuthError.
  run_service.
  destruct (auth_signIn fb email password) as [fu | e0]; simpl; [| reflexivity].
  destruct (getDoc_error fb (FirebaseUser.uid fu)); simpl; [reflexivity |].
  destruct (users w !! FirebaseUser.uid fu) as [data |] eqn:Hdoc; simpl.
  - destruct (updateDoc_error fb (FirebaseUser.uid fu)); simpl; [reflexivity |].
    rewrite Hdoc. reflexivity.
  - destruct (setDoc_error fb (FirebaseUser.uid fu)); reflexivity.
Qed.

(** The listener's run for an identity attaches it, ends loading and
    leaves [authError] alone. *)
Lemma afterPushEvent_session (fb : Firebase) (fu : FirebaseUser.t) (w : World) :
  firebaseUser (svc (afterPushEvent fb fu w)) = Some fu /\
  loading (svc (afterPushEvent fb fu w)) = false /\
  authError (svc (afterPushEvent fb fu w)) = authError (svc w).
Proof.
  unfold afterPushEvent, onAuthStateChanged, getUserProfile, createUserProfile.
  run_service.
  destruct (getDoc_error fb (FirebaseUser.uid fu)); simpl; [repeat split |].
  destruct (users w !! FirebaseUser.uid fu); simpl; [repeat split |].
  destruct (setDoc_error fb (FirebaseUser.uid fu)); repeat split.
Qed.

(** C7, amended. [login] sets loading to true (and clears [authError])
    when it is called, and loading is false once it has settled, on
    success and failure alike.  A failed login sets [authError] to the
    classified message of the error of the step that failed (the sign-in,
    the profile read, the profile creation or the last-login update): the
    fixed string of the error's code when that is one of the eight known
    codes ('Incorrect password. Please try again.' for a wrong password),
    and otherwise the error's raw message, or the fixed fallback string
    when that message is empty or absent.  When the provider rejects the
    sign-in, the profile, the raw identity and the store are left as they
    were, so a session that was Anonymous stays Anonymous.  When the
    sign-in succeeds and a later step fails, the listener still handles
    the auth-state event of that sign-in: it attaches the identity and
    leaves loading false and the recorded message in place. *)
Theorem login_failure_settles (fb : Firebase) (email password : string) (w : World) :
  loading (svc (snd (login fb email password w))) = true /\
  authError (svc (snd (login fb email password w))) = None /\
  loading (svc (snd (run (login fb email password) w))) = false /\
  (forall rejection,
     auth_signIn fb email password = Rejected rejection ->
     fst (run (login fb email password) w)
       = Rejected (newError (authErrorMessage rejection)) /\
     authError (svc (snd (run (login fb email password) w)))
       = Some (authErrorMessage rejection) /\
     currentUser (svc (snd (run (login fb email password) w))) = currentUser (svc w) /\
     firebaseUser (svc (snd (run (login fb email password) w))) = firebaseUser (svc w) /\
     (isAuthenticated (svc w) = false ->
      isAuthenticated (svc (snd (run (login fb email password) w))) = false) /\
     users (snd (run (login fb email password) w)) = users w) /\
  (forall fu,
     auth_signIn fb email password = Resolved fu ->
     (forall e1,
        getDoc_error fb (FirebaseUser.uid fu) = Some e1 ->
        fst (run (login fb email password) w) = Rejected (newError (authErrorMessage e1)) /\
        authError (svc (snd (run (login fb email password) w)))
          = Some (authErrorMessage e1)) /\
     (forall e2 data,
        getDoc_error fb (FirebaseUser.uid fu) = None ->
        users w !! FirebaseUser.uid fu = Some data ->
        updateDoc_error fb (FirebaseUser.uid fu) = Some e2 ->
        fst (run (login fb email password) w) = Rejected (newError (authErrorMessage e2)) /\
        authError (svc (snd (run (login fb email password) w)))
          = Some (authErrorMessage e2)) /\
     (forall e3,
        getDoc_error fb (FirebaseUser.uid fu) = None ->
        users w !! FirebaseUser.uid fu = None ->
        setDoc_error fb (FirebaseUser.uid fu) = Some e3 ->
        fst (run (login fb email password) w) = Rejected (newError (authErrorMessage e3)) /\
        authError (svc (snd (run (login fb email password) w)))
          = Some (authErrorMessage e3)) /\
     firebaseUser (svc (afterPushEvent fb fu (snd (run (login fb email password) w))))
       = Some fu /\
     loading (svc (afterPushEvent fb fu (snd (run (login fb email password) w)))) = false /\
     authError (svc (afterPushEvent fb fu (snd (run (login fb email password) w))))
       = authError (svc (snd (run (login fb email password) w)))) /\
  (forall e,
     fst (run (login fb email password) w) = Rejected e ->
     exists cause,
       e = newError (authErrorMessage cause) /\
       authError (svc (snd (run (login fb email password) w)))
         = Some (authErrorMessage cause) /\
       (auth_signIn fb email password = Rejected cause \/
        exists fu,
          auth_signIn fb email password = Resolved fu /\
          (getDoc_error fb (FirebaseUser.uid fu) = Some cause \/
           (getDoc_error fb (FirebaseUser.uid fu) = None /\
            users w !! FirebaseUser.uid fu <> None /\
            updateDoc_error fb (FirebaseUser.uid fu) = Some cause) \/
           (getDoc_error fb (FirebaseUser.uid fu) = None /\
            users w !! FirebaseUser.uid fu = None /\
            setDoc_error fb (FirebaseUser.uid fu) = Some cause))) /\
       (code cause = Some "auth/wrong-password" ->
        authErrorMessage cause = "Incorrect password. Please try again.") /\
       ((exists c, code cause = Some c /\ In c knownCodes) ->
        In (authErrorMessage cause) fixedMessages) /\
       ((forall c, code cause = Some c -> ~ In c knownCodes) ->
        authErrorMessage cause
          = or_else (message cause) "An error occurred. Please try again.")).
Proof.
  split; [reflexivity |]. split; [reflexivity |].
  split; [apply login_settles |]. split; [| split].
  - intros rejection Hsign.
    rewrite (login_run_failure fb email password w rejection (or_introl Hsign)).
    simpl. repeat split. unfold isAuthenticated. simpl. tauto.
  - intros fu Hsign. split; [| split; [| split]].
    + intros e1 Hget.
      rewrite (login_run_failure fb email password w e1);
        [now split | right; exists fu; split; [assumption | now left]].
    + intros e2 data Hget Hdoc Hupd.
      rewrite (login_run_failure fb email password w e2); [now split |].
      right. exists fu. split; [assumption |]. right. left.
      split; [assumption |]. split; [congruence | assumption].
    + intros e3 Hget Hdoc Hset.
      rewrite (login_run_failure fb email password w e3); [now split |].
      right. exists fu. split; [assumption |]. right. right. now repeat split.
    + apply afterPushEvent_session.
  - intros e Hfail.
    destruct (login_failure_cause fb email password w e Hfail) as (cause & He & Htie).
    exists cause. split; [exact He |].
    rewrite (login_run_failure fb email password w cause Htie). simpl.
    split; [reflexivity |]. split; [exact Htie |].
    split; [apply authErrorMessage_wrong_password |].
    split; [| apply authErrorMessage_unknown].
    intros (c & Hc & Hin). eapply authErrorMessage_known; eassumption.
Qed.

Lemma login_failure_settles_witness :
  authError
    (svc (snd (run (login (firebaseSignInFails wrongPassword) "alice@example.org" "guess")
                 (worldOf anonymousSession ∅))))
    = Some "Incorrect password. Please try again." /\
  isAuthenticated
    (svc (snd (run (login (firebaseSignInFails wrongPassword) "alice@example.org" "guess")
                 (worldOf anonymousSession ∅)))) = false /\
  authError
    (svc (snd (run (login firebaseUpdateFails "alice@example.org" "secret1")
                 (worldOf anonymousSession (aliceStored None None)))))
    = Some "Missing or insufficient permissions.".
Proof.
  destruct (login_failure_settles (firebaseSignInFails wrongPassword)
              "alice@example.org" "guess" (worldOf anonymousSession ∅))
    as (_ & _ & _ & Hrejected & _).
  destruct (Hrejected wrongPassword eq_refl) as (_ & Herr & _ & _ & Hanon & _).
  destruct (login_failure_settles firebaseUpdateFails
              "alice@example.org" "secret1" (worldOf anonymousSession (aliceStored None None)))
    as (_ & _ & _ & _ & Hlater & _).
  destruct (Hlater aliceIdentity eq_refl) as (_ & Hupdate & _).
  assert (Hdoc : users (worldOf anonymousSession (aliceStored None None))
                   !! FirebaseUser.uid aliceIdentity
                 = Some (aliceRecord None None)) by reflexivity.
  destruct (Hupdate permissionDenied (aliceRecord None None) eq_refl Hdoc eq_refl)
    as (_ & Hmsg).
  split; [exact Herr |]. split; [apply Hanon; reflexivity | exact Hmsg].
Defined.

(** A login that fails after the sign-in succeeded does not leave the
    session Anonymous: the user is signed in at the provider, and once
    the listener has handled the event the session is authenticated,
    with the failure of the login still in [authError]. *)
Example login_failure_after_sign_in :
  (exists e,
     fst (run (login firebaseUpdateFails "alice@example.org" "secret1")
            (worldOf anonymousSession (aliceStored None None))) = Rejected e) /\
  isAuthenticated
    (svc (afterPushEvent firebaseUpdateFails aliceIdentity
            (snd (run (login firebaseUpdateFails "alice@example.org" "secret1")
                    (worldOf anonymousSession (aliceStored None None)))))) = true /\
  authError
    (svc (afterPushEvent firebaseUpdateFails aliceIdentity
            (snd (run (login firebaseUpdateFails "alice@example.org" "secret1")
                    (worldOf anonymousSession (aliceStored None None))))))
    = Some "Missing or insufficient permissions.".
Proof. split; [eexists; reflexivity | split; reflexivity]. Qed.

(** *** Roles and permissions of an adopted profile *)

(** [updateUserRoles] stores the list it is given, the empty one too. *)
Example updateUserRoles_stores_empty_list :
  users (snd (updateUserRoles firebaseOk "u1" []
                (worldOf (sessionOf [admin] ["read"])
                   {[ "u1" := aliceRecord (Some [admin]) (Some ["read"]) ]})))
    !! "u1"
  = Some (patchRoles [] (aliceRecord (Some [admin]) (Some ["read"]))).
Proof. reflexivity. Qed.

Lemma getUserProfile_defaults
  (fb : Firebase) (uid : string) (emailVerified : bool) (w : World) (data : UserProfile.t) :
  getDoc_error fb uid = None ->
  users w !! uid = Some data ->
  exists u,
    getUserProfile fb uid emailVerified w = (Resolved (Some u), w) /\
    User.roles u = nullish (UserProfile.roles data) [user] /\
    User.permissions u = nullish (UserProfile.permissions data) ["read"] /\
    User.emailVerified u = emailVerified.
Proof.
  intros Hget Hdoc. unfold getUserProfile. run_service.
  rewrite Hget, Hdoc. eexists. repeat split.
Qed.

Lemma createUserProfile_defaults
  (fb : Firebase) (fu : FirebaseUser.t) (displayName : option string) (w : World) :
  setDoc_error fb (FirebaseUser.uid fu) = None ->
  exists u data,
    fst (createUserProfile fb fu displayName w) = Resolved u /\
    User.roles u = [user] /\ User.permissions u = ["read"] /\
    users (snd (createUserProfile fb fu displayName w)) !! FirebaseUser.uid fu = Some data /\
    UserProfile.roles data = Some [user] /\ UserProfile.permissions data = Some ["read"].
Proof.
  intros Hset. unfold createUserProfile. run_service. rewrite Hset. simpl.
  eexists. eexists. rewrite lookup_insert_eq. repeat split.
Qed.

(** C8, as stated, fails: a stored profile whose role and permission lists
    are present but empty is adopted with empty lists. *)
Lemma adopted_profile_empty_roles :
  option_map User.roles
    (currentUser
       (svc (snd (onAuthStateChanged firebaseOk (Some aliceIdentity)
                    (startWorld {[ "u1" := aliceRecord (Some []) (Some []) ]})))))
    = Some [] /\
  option_map User.permissions
    (currentUser
       (svc (snd (onAuthStateChanged firebaseOk (Some aliceIdentity)
                    (startWorld {[ "u1" := aliceRecord (Some []) (Some []) ]})))))
    = Some [].
Proof. split; reflexivity. Qed.

(** C8, amended. A profile adopted by a reconciliation comes from the
    stored record or, when there is none, from its creation.  From a
    stored record it takes the role list and the permission list as
    stored, which may be empty, and the defaults {user} and {read} when
    the field is absent; a created profile has exactly {user} and {read}.
    So its lists are empty only when the stored ones are. *)
Theorem adopted_profile_defaults
  (fb : Firebase) (w : World) (fu : FirebaseUser.t) (u : User.t) :
  currentUser (svc (snd (onAuthStateChanged fb (Some fu) w))) = Some u ->
  (users w !! FirebaseUser.uid fu = None ->
   User.roles u = [user] /\ User.permissions u = ["read"]) /\
  (forall data,
     users w !! FirebaseUser.uid fu = Some data ->
     (UserProfile.roles data = None -> User.roles u = [user]) /\
     (UserProfile.permissions data = None -> User.permissions u = ["read"]) /\
     (forall rs, UserProfile.roles data = Some rs -> User.roles u = rs) /\
     (forall ps, UserProfile.permissions data = Some ps -> User.permissions u = ps)) /\
  (User.roles u = [] ->
   exists data, users w !! FirebaseUser.uid fu = Some data /\
                UserProfile.roles data = Some []) /\
  (User.permissions u = [] ->
   exists data, users w !! FirebaseUser.uid fu = Some data /\
                UserProfile.permissions data = Some []).
Proof.
  unfold onAuthStateChanged, getUserProfile, createUserProfile. run_service.
  destruct (getDoc_error fb (FirebaseUser.uid fu)) as [e |]; simpl; [discriminate |].
  destruct (users w !! FirebaseUser.uid fu) as [data |]; simpl.
  - intros [= <-]. simpl. split; [discriminate |]. split.
    + intros data' [= <-]. repeat split.
      * now intros ->.
      * now intros ->.
      * now intros rs ->.
      * now intros ps ->.
    + split; intros Hempty; exists data; (split; [reflexivity |]).
      * destruct (UserProfile.roles data); simpl in Hempty; congruence.
      * destruct (UserProfile.permissions data); simpl in Hempty; congruence.
  - destruct (setDoc_error fb (FirebaseUser.uid fu)) as [e |]; simpl; [discriminate |].
    intros [= <-]. simpl. split; [now split |]. split; [discriminate |].
    split; discriminate.
Qed.

Lemma adopted_profile_defaults_witness :
  User.roles
    (aliceWith [user] ["write"]) = [user] /\
  currentUser
    (svc (snd (onAuthStateChanged firebaseOk (Some aliceIdentity)
                 (startWorld {[ "u1" := aliceRecord None (Some ["write"]) ]}))))
    = Some (aliceWith [user] ["write"]).
Proof.
  assert (Hadopted :
    currentUser
      (svc (snd (onAuthStateChanged firebaseOk (Some aliceIdentity)
                   (startWorld {[ "u1" := aliceRecord None (Some ["write"]) ]}))))
      = Some (aliceWith [user] ["write"])) by reflexivity.
  destruct (adopted_profile_defaults firebaseOk
              (startWorld {[ "u1" := aliceRecord None (Some ["write"]) ]})
              aliceIdentity (aliceWith [user] ["write"]) Hadopted)
    as (_ & Hstored & _).
  destruct (Hstored (aliceRecord None (Some ["write"])) eq_refl) as (Hroles & _).
  split; [exact (Hroles eq_refl) | exact Hadopted].
Defined.

(* ===================================================================== *)
(** ** More on the guards                                                 *)
(* ===================================================================== *)

Lemma hasAllPermissions_Forall (s : AuthService) (ps : list string) :
  every ps (fun p => hasPermission s p) = true
  <-> Forall (fun p => In p (userPermissions s)) ps.
Proof.
  unfold every. rewrite forallb_forall, List.Forall_forall.
  split; intros Hall p Hp; apply hasPermission_In; now apply Hall.
Qed.

Lemma permissionGuard_checked (ps : list string) rs ra (s : AuthService) :
  isAuthenticated s = true -> ps <> [] ->
  permissionGuard (routeWith rs (Some ps) ra) s =
    if (if nullish ra false then every ps (fun p => hasPermission s p)
        else hasAnyPermission s ps)
    then allow else toUnauthorized.
Proof.
  intros Hauth Hne. unfold permissionGuard. rewrite Hauth. simpl.
  destruct ps as [| p ps]; [congruence | reflexivity].
Qed.

(** The permission guard has the shape of the role guard: an
    authenticated session passes a route without permissions; otherwise it
    passes exactly when [requireAll] is true and every required permission
    is held, or [requireAll] is false or absent and some required
    permission is held, and is sent to '/unauthorized' when it does not
    pass. *)
Theorem permissionGuard_decision
  (rs : option (list UserRole)) (ps : option (list string)) (ra : option bool)
  (s : AuthService) :
  isAuthenticated s = true ->
  (ps = None \/ ps = Some [] -> permissionGuard (routeWith rs ps ra) s = allow) /\
  (forall required,
     ps = Some required -> required <> [] ->
     (permissionGuard (routeWith rs ps ra) s = allow <->
        (ra = Some true /\ Forall (fun p => In p (userPermissions s)) required) \/
        (ra <> Some true /\ Exists (fun p => In p (userPermissions s)) required)) /\
     (permissionGuard (routeWith rs ps ra) s <> allow ->
      permissionGuard (routeWith rs ps ra) s = toUnauthorized)).
Proof.
  intros Hauth. split.
  - intros [-> | ->]; unfold permissionGuard; now rewrite Hauth.
  - intros required -> Hne. rewrite permissionGuard_checked by assumption.
    split; [split |].
    + intros Hallow. destruct ra as [[|]|]; simpl in Hallow.
      * left. split; [reflexivity |]. apply hasAllPermissions_Forall.
        destruct (every required _); [reflexivity | discriminate].
      * right. split; [discriminate |]. apply hasAnyPermission_Exists.
        destruct (hasAnyPermission s required); [reflexivity | discriminate].
      * right. split; [discriminate |]. apply hasAnyPermission_Exists.
        destruct (hasAnyPermission s required); [reflexivity | discriminate].
    + intros [[-> Hall] | [Hra Hany]].
      * apply hasAllPermissions_Forall in Hall. simpl. now rewrite Hall.
      * apply hasAnyPermission_Exists in Hany.
        destruct ra as [[|]|]; [congruence | |]; unfold nullish; now rewrite Hany.
    + destruct (if nullish ra false then _ else _); [congruence | reflexivity].
Qed.

Lemma permissionGuard_decision_witness :
  permissionGuard (routeWith None (Some ["read"; "write"]) (Some true))
    (sessionOf [user] ["read"]) = toUnauthorized /\
  permissionGuard (routeWith None (Some ["read"; "write"]) (Some true))
    (sessionOf [user] ["read"; "write"; "delete"]) = allow.
Proof.
  split.
  - destruct (permissionGuard_decision None (Some ["read"; "write"]) (Some true)
                (sessionOf [user] ["read"]) eq_refl) as [_ Hchecked].
    destruct (Hchecked ["read"; "write"] eq_refl) as [_ Hdenied]; [discriminate |].
    apply Hdenied. discriminate.
  - destruct (permissionGuard_decision None (Some ["read"; "write"]) (Some true)
                (sessionOf [user] ["read"; "write"; "delete"]) eq_refl) as [_ Hchecked].
    destruct (Hchecked ["read"; "write"] eq_refl) as [Hallow _]; [discriminate |].
    apply Hallow. left. split; [reflexivity |]. repeat constructor; simpl; tauto.
Defined.

(** The four guards that check roles or permissions redirect to '/login'
    exactly when the session is not authenticated: an authenticated user
    is never sent to the login page by them, and an unauthenticated one is
    never told '/unauthorized'. *)
Theorem access_guards_login_iff_unauthenticated
  (route : ActivatedRouteSnapshot) (rs : list UserRole) (ps : list string)
  (s : AuthService) :
  (roleGuard route s = toLogin <-> isAuthenticated s = false) /\
  (permissionGuard route s = toLogin <-> isAuthenticated s = false) /\
  (requireRoles rs route s = toLogin <-> isAuthenticated s = false) /\
  (requirePermissions ps route s = toLogin <-> isAuthenticated s = false).
Proof.
  unfold roleGuard, permissionGuard, requireRoles, requirePermissions.
  destruct (isAuthenticated s); simpl; repeat split; try discriminate;
    repeat match goal with
           | |- context [if ?b then _ else _] => destruct b
           end; discriminate.
Qed.

Lemma checkAuth_firstSettled (settled : AuthService -> GuardResult)
  (ticks : list AuthService) :
  checkAuth settled ticks = option_map settled (firstSettled ticks).
Proof.
  unfold firstSettled. induction ticks as [| t ticks IH]; simpl; [reflexivity |].
  destruct (negb (isLoading t)); [reflexivity | exact IH].
Qed.

(** The anonymous-only guard mirrors the authentication-required guard:
    on the same session and the same polls, one has answered exactly when
    the other has, and then exactly one of the two allows; when the
    anonymous-only guard does not allow, it redirects to '/dashboard'
    without query parameters. *)
Theorem noAuthGuard_mirrors_authGuard
  (route : ActivatedRouteSnapshot) (state : RouterStateSnapshot)
  (s : AuthService) (ticks : list AuthService) :
  (noAuthGuard s ticks = None <-> authGuard route state s ticks = None) /\
  (forall r, noAuthGuard s ticks = Some r ->
             r = allow \/ r = redirect (createUrlTree ["/dashboard"] [])) /\
  (noAuthGuard s ticks = Some allow <->
   authGuard route state s ticks = Some (toLoginReturning (url state))) /\
  (noAuthGuard s ticks = Some (redirect (createUrlTree ["/dashboard"] [])) <->
   authGuard route state s ticks = Some allow).
Proof.
  unfold noAuthGuard, authGuard. rewrite !checkAuth_firstSettled.
  destruct (isLoading s).
  - destruct (firstSettled ticks) as [t |]; simpl.
    + destruct (isAuthenticated t); simpl; repeat split;
        try discriminate; try (intros r [= <-]; tauto).
    + repeat split; discriminate.
  - destruct (isAuthenticated s); simpl; repeat split;
      try discriminate; try (intros r [= <-]; tauto).
Qed.

Lemma hasAnyRole_same_sets (s s' : AuthService) (rs rs' : list UserRole) :
  (forall r, In r (userRoles s) <-> In r (userRoles s')) ->
  (forall r, In r rs <-> In r rs') ->
  hasAnyRole s rs = hasAnyRole s' rs'.
Proof.
  intros Hheld Hreq. apply Bool.eq_iff_eq_true.
  rewrite !hasAnyRole_Exists, !List.Exists_exists.
  split; intros (r & Hr & Hin); exists r; split;
    solve [now apply Hreq | now apply Hheld].
Qed.

Lemma hasAllRoles_same_sets (s s' : AuthService) (rs rs' : list UserRole) :
  (forall r, In r (userRoles s) <-> In r (userRoles s')) ->
  (forall r, In r rs <-> In r rs') ->
  hasAllRoles s rs = hasAllRoles s' rs'.
Proof.
  intros Hheld Hreq. apply Bool.eq_iff_eq_true.
  rewrite !hasAllRoles_Forall, !List.Forall_forall.
  split; intros Hall r Hr; apply Hheld, Hall; now apply Hreq.
Qed.

(** Role checks are set membership only: the role guard's answer does not
    depend on the order or on repetitions, neither in the roles the user
    holds nor in the roles the route requires. *)
Theorem roleGuard_set_semantics
  (rs rs' : list UserRole) (ps : option (list string)) (ra : option bool)
  (s s' : AuthService) :
  isAuthenticated s = isAuthenticated s' ->
  (forall r, In r (userRoles s) <-> In r (userRoles s')) ->
  (forall r, In r rs <-> In r rs') ->
  roleGuard (routeWith (Some rs) ps ra) s = roleGuard (routeWith (Some rs') ps ra) s'.
Proof.
  intros Hauth Hheld Hreq. unfold roleGuard. rewrite <- Hauth.
  destruct (isAuthenticated s); simpl; [| reflexivity].
  destruct rs as [| r rs], rs' as [| r' rs']; cbn -[hasAnyRole hasAllRoles].
  - reflexivity.
  - exfalso. apply (Hreq r'). now left.
  - exfalso. apply (Hreq r). now left.
  - rewrite (hasAnyRole_same_sets s s' (r :: rs) (r' :: rs') Hheld Hreq).
    rewrite (hasAllRoles_same_sets s s' (r :: rs) (r' :: rs') Hheld Hreq).
    reflexivity.
Qed.

Lemma roleGuard_set_semantics_witness :
  roleGuard (routeWith (Some [admin; moderator]) None (Some true))
    (sessionOf [moderator; user; admin] ["read"])
  = roleGuard (routeWith (Some [moderator; admin; admin]) None (Some true))
      (sessionOf [admin; admin; user; moderator] ["read"]).
Proof.
  apply roleGuard_set_semantics.
  - reflexivity.
  - intros r. simpl. tauto.
  - intros r. simpl. tauto.
Defined.

(** Access only grows with what the user holds: a session that passes the
    role guard or the permission guard still passes it when it holds
    more roles and permissions. *)
Theorem guards_monotone (route : ActivatedRouteSnapshot) (s s' : AuthService) :
  isAuthenticated s' = true ->
  (forall r, In r (userRoles s) -> In r (userRoles s')) ->
  (forall p, In p (userPermissions s) -> In p (userPermissions s')) ->
  (roleGuard route s = allow -> roleGuard route s' = allow) /\
  (permissionGuard route s = allow -> permissionGuard route s' = allow).
Proof.
  intros Hauth' Hroles Hperms.
  assert (Hany : forall rs, hasAnyRole s rs = true -> hasAnyRole s' rs = true).
  { intros rs. rewrite !hasAnyRole_Exists, !List.Exists_exists.
    intros (r & Hr & Hin). exists r. auto. }
  assert (Hall : forall rs, hasAllRoles s rs = true -> hasAllRoles s' rs = true).
  { intros rs. rewrite !hasAllRoles_Forall, !List.Forall_forall. auto. }
  assert (HanyP : forall ps, hasAnyPermission s ps = true -> hasAnyPermission s' ps = true).
  { intros ps. rewrite !hasAnyPermission_Exists, !List.Exists_exists.
    intros (p & Hp & Hin). exists p. auto. }
  assert (HallP : forall ps, every ps (fun p => hasPermission s p) = true ->
                             every ps (fun p => hasPermission s' p) = true).
  { intros ps. rewrite !hasAllPermissions_Forall, !List.Forall_forall. auto. }
  destruct route as [[rs ps ra]].
  unfold roleGuard, permissionGuard. rewrite Hauth'. simpl.
  destruct (isAuthenticated s); simpl; [| split; discriminate].
  split.
  - destruct (nullish rs []) as [| r required]; cbn -[hasAnyRole hasAllRoles];
      [reflexivity |].
    destruct (nullish ra false).
    + destruct (hasAllRoles s (r :: required)) eqn:E; [| discriminate].
      now rewrite (Hall _ E).
    + destruct (hasAnyRole s (r :: required)) eqn:E; [| discriminate].
      now rewrite (Hany _ E).
  - destruct (nullish ps []) as [| p required]; cbn -[hasAnyPermission every];
      [reflexivity |].
    destruct (nullish ra false).
    + destruct (every (p :: required) (fun q => hasPermission s q)) eqn:E; [| discriminate].
      now rewrite (HallP _ E).
    + destruct (hasAnyPermission s (p :: required)) eqn:E; [| discriminate].
      now rewrite (HanyP _ E).
Qed.

Lemma guards_monotone_witness :
  roleGuard (routeWith (Some [moderator]) None None) (sessionOf [moderator; admin] ["read"])
  = allow.
Proof.
  apply (guards_monotone (routeWith (Some [moderator]) None None)
           (sessionOf [moderator] ["read"]) (sessionOf [moderator; admin] ["read"])).
  - reflexivity.
  - intros r. simpl. tauto.
  - intros p. simpl. tauto.
  - reflexivity.
Defined.

(* ===================================================================== *)
(** ** More on the listener                                               *)
(* ===================================================================== *)

(** What holds after every run of the auth-state listener, whatever the
    event and whatever Firebase answers: loading is over, the raw
    identity is the one of the event, [authError] is untouched, and a
    profile is present only together with an identity, so that
    [isAuthenticated ()] says exactly whether a profile is present; that
    profile carries the uid and the live [emailVerified] flag of the
    event's identity.  An event without identity clears the profile and
    writes nothing. *)
Theorem listener_invariant (fb : Firebase) (w : World) (event : option FirebaseUser.t) :
  loading (svc (snd (onAuthStateChanged fb event w))) = false /\
  firebaseUser (svc (snd (onAuthStateChanged fb event w))) = event /\
  authError (svc (snd (onAuthStateChanged fb event w))) = authError (svc w) /\
  isAuthenticated (svc (snd (onAuthStateChanged fb event w)))
    = truthy (currentUser (svc (snd (onAuthStateChanged fb event w)))) /\
  (event = None ->
   currentUser (svc (snd (onAuthStateChanged fb event w))) = None /\
   users (snd (onAuthStateChanged fb event w)) = users w /\
   trace (snd (onAuthStateChanged fb event w)) = trace w) /\
  (forall u,
     currentUser (svc (snd (onAuthStateChanged fb event w))) = Some u ->
     exists fu, event = Some fu /\
                User.uid u = FirebaseUser.uid fu /\
                User.emailVerified u = FirebaseUser.emailVerified fu).
Proof.
  unfold onAuthStateChanged, getUserProfile, createUserProfile, isAuthenticated.
  run_service.
  destruct event as [fu |]; simpl.
  - destruct (getDoc_error fb (FirebaseUser.uid fu)) as [e |]; simpl.
    + repeat split; discriminate.
    + destruct (users w !! FirebaseUser.uid fu) as [data |]; simpl.
      * repeat split; try discriminate. intros u [= <-]. exists fu. repeat split.
      * destruct (setDoc_error fb (FirebaseUser.uid fu)) as [e |]; simpl.
        -- repeat split; discriminate.
        -- repeat split; try discriminate. intros u [= <-]. exists fu. repeat split.
  - repeat split. discriminate.
Qed.

(** A push event carrying an identity whose profile can be fetched or
    created ends in an authenticated session.  An existing record is
    adopted without any write; a missing one is created under the
    identity's uid with the default role and permission, and no other
    record is touched. *)
Theorem listener_adopts_profile (fb : Firebase) (w : World) (fu : FirebaseUser.t) :
  getDoc_error fb (FirebaseUser.uid fu) = None ->
  (users w !! FirebaseUser.uid fu = None -> setDoc_error fb (FirebaseUser.uid fu) = None) ->
  isAuthenticated (svc (snd (onAuthStateChanged fb (Some fu) w))) = true /\
  trace (snd (onAuthStateChanged fb (Some fu) w)) = trace w /\
  (forall data, users w !! FirebaseUser.uid fu = Some data ->
                users (snd (onAuthStateChanged fb (Some fu) w)) = users w) /\
  (users w !! FirebaseUser.uid fu = None ->
   (exists data,
      users (snd (onAuthStateChanged fb (Some fu) w)) !! FirebaseUser.uid fu = Some data /\
      UserProfile.roles data = Some [user] /\
      UserProfile.permissions data = Some ["read"] /\
      UserProfile.email data = nullish (FirebaseUser.email fu) "" /\
      UserProfile.displayName data = nullish (FirebaseUser.displayName fu) "User") /\
   (forall other, other <> FirebaseUser.uid fu ->
      users (snd (onAuthStateChanged fb (Some fu) w)) !! other = users w !! other)).
Proof.
  intros Hget Hset.
  unfold onAuthStateChanged, getUserProfile, createUserProfile, isAuthenticated.
  run_service. rewrite Hget. simpl.
  destruct (users w !! FirebaseUser.uid fu) as [data |] eqn:Hdoc; simpl.
  - repeat split; discriminate.
  - rewrite (Hset eq_refl). simpl. repeat split; try discriminate.
    + eexists. rewrite lookup_insert_eq. repeat split.
    + intros other Hother. now rewrite lookup_insert_ne by congruence.
Qed.

Lemma listener_adopts_profile_witness :
  isAuthenticated (svc (snd (onAuthStateChanged firebaseOk (Some aliceIdentity)
                               (startWorld ∅)))) = true /\
  users (snd (onAuthStateChanged firebaseOk (Some aliceIdentity)
                (startWorld (aliceStored (Some [admin]) None))))
    = aliceStored (Some [admin]) None.
Proof.
  split.
  - apply (listener_adopts_profile firebaseOk (startWorld ∅) aliceIdentity);
      reflexivity.
  - apply (listener_adopts_profile firebaseOk
             (startWorld (aliceStored (Some [admin]) None)) aliceIdentity)
      with (data := aliceRecord (Some [admin]) None); reflexivity.
Defined.

(** Reconciliation round trip: the profile created at the first push
    event of an identity is the one a later run of the listener, on a
    fresh session over the same store, fetches again: same uid, e-mail,
    verified flag, display name, photo, roles and permissions. *)
Theorem reconciliation_round_trip
  (fb : Firebase) (w : World) (fu : FirebaseUser.t) (s : AuthService) :
  getDoc_error fb (FirebaseUser.uid fu) = None ->
  setDoc_error fb (FirebaseUser.uid fu) = None ->
  users w !! FirebaseUser.uid fu = None ->
  exists u u',
    currentUser (svc (snd (onAuthStateChanged fb (Some fu) w))) = Some u /\
    currentUser
      (svc (snd (onAuthStateChanged fb (Some fu)
                   (worldOf s (users (snd (onAuthStateChanged fb (Some fu) w)))))))
      = Some u' /\
    User.uid u' = User.uid u /\
    User.email u' = User.email u /\
    User.emailVerified u' = User.emailVerified u /\
    User.displayName u' = User.displayName u /\
    User.photoURL u' = User.photoURL u /\
    User.roles u' = User.roles u /\
    User.permissions u' = User.permissions u /\
    User.roles u = [user] /\ User.permissions u = ["read"].
Proof.
  intros Hget Hset Habsent.
  unfold onAuthStateChanged, getUserProfile, createUserProfile, worldOf.
  run_service. rewrite Hget. simpl. rewrite Habsent. simpl. rewrite Hset. simpl.
  rewrite lookup_insert_eq. simpl.
  eexists. eexists. repeat split.
Qed.

Lemma reconciliation_round_trip_witness :
  exists u,
    currentUser
      (svc (snd (onAuthStateChanged firebaseOk (Some aliceIdentity)
                   (worldOf initialAuthService
                      (users (snd (onAuthStateChanged firebaseOk (Some aliceIdentity)
                                     (startWorld ∅))))))))
      = Some u /\
    User.roles u = [user].
Proof.
  assert (Habsent : users (startWorld ∅) !! FirebaseUser.uid aliceIdentity = None)
    by reflexivity.
  destruct (reconciliation_round_trip firebaseOk (startWorld ∅) aliceIdentity
              initialAuthService eq_refl eq_refl Habsent)
    as (u & u' & _ & Hsecond & _ & _ & _ & _ & _ & Hroles & _ & Hdefault & _).
  exists u'. split; [exact Hsecond |]. now rewrite Hroles.
Defined.

(* ===================================================================== *)
(** ** More on [login], [loginWithGoogle] and [register]                  *)
(* ===================================================================== *)

(** The message [handleAuthError] shows is never empty: a known code has
    its own sentence, and an empty or missing raw message is replaced by
    the fallback sentence. *)
Theorem authErrorMessage_not_empty (e : JsError) :
  exists c rest, authErrorMessage e = String c rest.
Proof.
  unfold authErrorMessage.
  repeat match goal with
         | |- context [if ?b then _ else _] =>
             destruct b; [eexists; eexists; reflexivity |]
         end.
  unfold or_else. destruct (message e) as [m |]; [| eexists; eexists; reflexivity].
  destruct m as [| c rest]; simpl; eexists; eexists; reflexivity.
Qed.

(** A successful login of a user whose record exists returns the stored
    profile (defaults for absent role or permission fields, the uid and
    the live verified flag of the identity) and ends with loading false
    and no error.  In the store only the user's own record changes, and
    only in [lastLoginAt] and [updatedAt].  Once the listener has handled
    the auth-state event of the sign-in, the session is authenticated
    with that identity and with the roles and permissions the login
    returned, and the listener has written nothing. *)
Theorem login_success_returning_user
  (fb : Firebase) (email password : string) (w : World)
  (fu : FirebaseUser.t) (data : UserProfile.t) :
  auth_signIn fb email password = Resolved fu ->
  getDoc_error fb (FirebaseUser.uid fu) = None ->
  users w !! FirebaseUser.uid fu = Some data ->
  updateDoc_error fb (FirebaseUser.uid fu) = None ->
  exists u data',
    fst (run (login fb email password) w) = Resolved u /\
    User.uid u = FirebaseUser.uid fu /\
    User.emailVerified u = FirebaseUser.emailVerified fu /\
    User.roles u = nullish (UserProfile.roles data) [user] /\
    User.permissions u = nullish (UserProfile.permissions data) ["read"] /\
    loading (svc (snd (run (login fb email password) w))) = false /\
    authError (svc (snd (run (login fb email password) w))) = None /\
    users (snd (run (login fb email password) w)) !! FirebaseUser.uid fu = Some data' /\
    UserProfile.lastLoginAt data' = Some serverTimestamp /\
    UserProfile.updatedAt data' = Some serverTimestamp /\
    UserProfile.roles data' = UserProfile.roles data /\
    UserProfile.permissions data' = UserProfile.permissions data /\
    UserProfile.email data' = UserProfile.email data /\
    UserProfile.displayName data' = UserProfile.displayName data /\
    UserProfile.photoURL data' = UserProfile.photoURL data /\
    UserProfile.createdAt data' = UserProfile.createdAt data /\
    (forall other, other <> FirebaseUser.uid fu ->
       users (snd (run (login fb email password) w)) !! other = users w !! other) /\
    isAuthenticated (svc (afterPushEvent fb fu (snd (run (login fb email password) w))))
      = true /\
    firebaseUser (svc (afterPushEvent fb fu (snd (run (login fb email password) w))))
      = Some fu /\
    userRoles (svc (afterPushEvent fb fu (snd (run (login fb email password) w))))
      = User.roles u /\
    userPermissions (svc (afterPushEvent fb fu (snd (run (login fb email password) w))))
      = User.permissions u /\
    loading (svc (afterPushEvent fb fu (snd (run (login fb email password) w)))) = false /\
    authError (svc (afterPushEvent fb fu (snd (run (login fb email password) w)))) = None /\
    users (afterPushEvent fb fu (snd (run (login fb email password) w)))
      = users (snd (run (login fb email password) w)).
Proof.
  intros Hsign Hget Hdoc Hupd.
  unfold afterPushEvent, onAuthStateChanged, login, handleAuthSuccess, getUserProfile,
    createUserProfile, handleAuthError, isAuthenticated, userRoles, userPermissions.
  run_service. rewrite Hsign. simpl. rewrite Hget. simpl. rewrite Hdoc. simpl.
  rewrite Hupd. simpl. rewrite Hdoc. simpl. rewrite ?Hget. simpl.
  rewrite ?lookup_insert_eq. simpl.
  eexists. eexists. rewrite ?lookup_insert_eq. repeat split.
  intros other Hother. now rewrite lookup_insert_ne by congruence.
Qed.

Lemma login_success_returning_user_witness :
  exists u,
    fst (run (login firebaseOk "alice@example.org" "secret1")
           (worldOf anonymousSession (aliceStored None (Some ["write"]))))
      = Resolved u /\
    User.roles u = [user] /\ User.permissions u = ["write"] /\
    isAuthenticated
      (svc (afterPushEvent firebaseOk aliceIdentity
              (snd (run (login firebaseOk "alice@example.org" "secret1")
                      (worldOf anonymousSession (aliceStored None (Some ["write"])))))))
      = true.
Proof.
  assert (Hdoc : users (worldOf anonymousSession (aliceStored None (Some ["write"])))
                   !! FirebaseUser.uid aliceIdentity
                 = Some (aliceRecord None (Some ["write"]))) by reflexivity.
  destruct (login_success_returning_user firebaseOk "alice@example.org" "secret1"
              (worldOf anonymousSession (aliceStored None (Some ["write"])))
              aliceIdentity (aliceRecord None (Some ["write"]))
              eq_refl eq_refl Hdoc eq_refl)
    as (u & data' & Hres & _ & _ & Hroles & Hperms & _ & _ & _ & _ & _ & _ & _ & _ & _
        & _ & _ & _ & Hauth & _).
  exists u. repeat split; assumption.
Defined.

(** A successful first login (no record yet) returns a profile with the
    default role and permission, and the record of the identity's uid
    holds them too; no other record is touched, loading is false and
    there is no error.  Once the listener has handled the auth-state
    event of the sign-in, the session is authenticated with that identity
    and with the default role and permission. *)
Theorem login_success_first_time
  (fb : Firebase) (email password : string) (w : World) (fu : FirebaseUser.t) :
  auth_signIn fb email password = Resolved fu ->
  getDoc_error fb (FirebaseUser.uid fu) = None ->
  users w !! FirebaseUser.uid fu = None ->
  setDoc_error fb (FirebaseUser.uid fu) = None ->
  exists u data,
    fst (run (login fb email password) w) = Resolved u /\
    User.uid u = FirebaseUser.uid fu /\
    User.roles u = [user] /\ User.permissions u = ["read"] /\
    loading (svc (snd (run (login fb email password) w))) = false /\
    authError (svc (snd (run (login fb email password) w))) = None /\
    users (snd (run (login fb email password) w)) !! FirebaseUser.uid fu = Some data /\
    UserProfile.roles data = Some [user] /\
    UserProfile.permissions data = Some ["read"] /\
    (forall other, other <> FirebaseUser.uid fu ->
       users (snd (run (login fb email password) w)) !! other = users w !! other) /\
    isAuthenticated (svc (afterPushEvent fb fu (snd (run (login fb email password) w))))
      = true /\
    firebaseUser (svc (afterPushEvent fb fu (snd (run (login fb email password) w))))
      = Some fu /\
    userRoles (svc (afterPushEvent fb fu (snd (run (login fb email password) w))))
      = [user] /\
    userPermissions (svc (afterPushEvent fb fu (snd (run (login fb email password) w))))
      = ["read"] /\
    users (afterPushEvent fb fu (snd (run (login fb email password) w)))
      = users (snd (run (login fb email password) w)).
Proof.
  intros Hsign Hget Hdoc Hset.
  unfold afterPushEvent, onAuthStateChanged, login, handleAuthSuccess, getUserProfile,
    createUserProfile, handleAuthError, isAuthenticated, userRoles, userPermissions.
  run_service. rewrite Hsign. simpl. rewrite Hget. simpl. rewrite Hdoc. simpl.
  rewrite Hset. simpl. rewrite ?Hget. simpl. rewrite ?lookup_insert_eq. simpl.
  eexists. eexists. rewrite ?lookup_insert_eq. repeat split.
  intros other Hother. now rewrite lookup_insert_ne by congruence.
Qed.

Lemma login_success_first_time_witness :
  exists data,
    users (snd (run (login firebaseOk "alice@example.org" "secret1")
                  (worldOf anonymousSession ∅))) !! "u1" = Some data /\
    UserProfile.roles data = Some [user].
Proof.
  assert (Hdoc : users (worldOf anonymousSession ∅) !! FirebaseUser.uid aliceIdentity = None)
    by reflexivity.
  destruct (login_success_first_time firebaseOk "alice@example.org" "secret1"
              (worldOf anonymousSession ∅) aliceIdentity eq_refl eq_refl Hdoc eq_refl)
    as (u & data & _ & _ & _ & _ & _ & _ & Hstored & Hroles & _).
  exists data. split; assumption.
Defined.

(** A failed login writes nothing to the profile store, and a login that
    changed the store has succeeded. *)
Theorem login_failure_writes_nothing
  (fb : Firebase) (email password : string) (w : World) (e : JsError) :
  fst (run (login fb email password) w) = Rejected e ->
  users (snd (run (login fb email password) w)) = users w.
Proof.
  unfold login, handleAuthSuccess, getUserProfile, createUserProfile, handleAuthError.
  run_service.
  destruct (auth_signIn fb email password) as [fu | e0]; simpl; [| reflexivity].
  destruct (getDoc_error fb (FirebaseUser.uid fu)) as [e1 |]; simpl; [reflexivity |].
  destruct (users w !! FirebaseUser.uid fu) as [data |] eqn:Hdoc; simpl.
  - destruct (updateDoc_error fb (FirebaseUser.uid fu)) as [e2 |]; simpl; [reflexivity |].
    rewrite Hdoc. simpl. discriminate.
  - destruct (setDoc_error fb (FirebaseUser.uid fu)) as [e3 |]; simpl;
      [reflexivity | discriminate].
Qed.

Lemma login_failure_writes_nothing_witness :
  users (snd (run (login firebaseFetchFails "alice@example.org" "secret1")
                (worldOf anonymousSession (aliceStored (Some [admin]) None))))
  = aliceStored (Some [admin]) None.
Proof.
  apply (login_failure_writes_nothing firebaseFetchFails "alice@example.org" "secret1"
           (worldOf anonymousSession (aliceStored (Some [admin]) None))
           (newError "Missing or insufficient permissions.")).
  reflexivity.
Defined.

(** Login followed by the provider's push event for the same identity:
    the session is authenticated, with the roles and permissions the
    login adopted, and the listener writes nothing more. *)
Theorem login_then_listener_authenticated
  (fb : Firebase) (email password : string) (w : World) (fu : FirebaseUser.t) :
  auth_signIn fb email password = Resolved fu ->
  getDoc_error fb (FirebaseUser.uid fu) = None ->
  (users w !! FirebaseUser.uid fu = None -> setDoc_error fb (FirebaseUser.uid fu) = None) ->
  (users w !! FirebaseUser.uid fu <> None -> updateDoc_error fb (FirebaseUser.uid fu) = None) ->
  isAuthenticated
    (svc (snd (onAuthStateChanged fb (Some fu) (snd (run (login fb email password) w)))))
    = true /\
  userRoles
    (svc (snd (onAuthStateChanged fb (Some fu) (snd (run (login fb email password) w)))))
    = userRoles (svc (snd (run (login fb email password) w))) /\
  userPermissions
    (svc (snd (onAuthStateChanged fb (Some fu) (snd (run (login fb email password) w)))))
    = userPermissions (svc (snd (run (login fb email password) w))) /\
  users (snd (onAuthStateChanged fb (Some fu) (snd (run (login fb email password) w))))
    = users (snd (run (login fb email password) w)).
Proof.
  intros Hsign Hget Hset Hupd.
  unfold onAuthStateChanged, login, handleAuthSuccess, getUserProfile, createUserProfile,
    handleAuthError, isAuthenticated, userRoles, userPermissions.
  run_service. rewrite Hsign. simpl. rewrite Hget. simpl.
  destruct (users w !! FirebaseUser.uid fu) as [data |] eqn:Hdoc; simpl.
  - rewrite Hupd by discriminate. simpl. rewrite Hdoc. simpl. rewrite ?Hget. simpl.
    rewrite lookup_insert_eq. simpl. repeat split.
  - rewrite (Hset eq_refl). simpl. rewrite ?Hget. simpl.
    rewrite lookup_insert_eq. simpl. repeat split.
Qed.

Lemma login_then_listener_authenticated_witness :
  isAuthenticated
    (svc (snd (onAuthStateChanged firebaseOk (Some aliceIdentity)
                 (snd (run (login firebaseOk "alice@example.org" "secret1")
                         (worldOf anonymousSession ∅)))))) = true.
Proof.
  apply (login_then_listener_authenticated firebaseOk "alice@example.org" "secret1"
           (worldOf anonymousSession ∅) aliceIdentity); reflexivity.
Defined.

(** [loginWithGoogle] has the contract of [login]: given the popup the
    answer the password sign-in gets, it ends with the same result, the
    same session and the same store. *)
Theorem loginWithGoogle_as_login (fb : Firebase) (email password : string) (w : World) :
  fst (run (loginWithGoogle fb (auth_signIn fb email password)) w)
    = fst (run (login fb email password) w) /\
  svc (snd (run (loginWithGoogle fb (auth_signIn fb email password)) w))
    = svc (snd (run (login fb email password) w)) /\
  users (snd (run (loginWithGoogle fb (auth_signIn fb email password)) w))
    = users (snd (run (login fb email password) w)).
Proof.
  unfold loginWithGoogle, login, signInWithPopup, handleAuthSuccess, getUserProfile,
    createUserProfile, handleAuthError.
  run_service.
  destruct (auth_signIn fb email password) as [fu | e0]; simpl; [| repeat split].
  destruct (getDoc_error fb (FirebaseUser.uid fu)) as [e1 |]; simpl; [repeat split |].
  destruct (users w !! FirebaseUser.uid fu) as [data |] eqn:Hdoc; simpl.
  - destruct (updateDoc_error fb (FirebaseUser.uid fu)) as [e2 |]; simpl; [repeat split |].
    rewrite Hdoc. simpl. repeat split.
  - destruct (setDoc_error fb (FirebaseUser.uid fu)) as [e3 |]; simpl; repeat split.
Qed.

(** A Google sign-in whose popup is rejected (closed by the user, say)
    fails with the classified message, stores it in [authError], ends
    loading, and leaves the profile, the identity and the store alone. *)
Theorem loginWithGoogle_popup_rejected (fb : Firebase) (w : World) (e : JsError) :
  fst (run (loginWithGoogle fb (Rejected e)) w) = Rejected (newError (authErrorMessage e)) /\
  authError (svc (snd (run (loginWithGoogle fb (Rejected e)) w)))
    = Some (authErrorMessage e) /\
  loading (svc (snd (run (loginWithGoogle fb (Rejected e)) w))) = false /\
  currentUser (svc (snd (run (loginWithGoogle fb (Rejected e)) w))) = currentUser (svc w) /\
  firebaseUser (svc (snd (run (loginWithGoogle fb (Rejected e)) w))) = firebaseUser (svc w) /\
  users (snd (run (loginWithGoogle fb (Rejected e)) w)) = users w /\
  (code e = Some "auth/popup-closed-by-user" ->
   authErrorMessage e = "Sign-in popup was closed. Please try again.").
Proof.
  unfold loginWithGoogle, signInWithPopup, handleAuthError. run_service.
  repeat split. intros Hcode. unfold authErrorMessage. now rewrite Hcode.
Qed.




(** When the provider refuses to create the account (the e-mail is in
    use, say), [register] makes no further call: no display name update,
    no verification e-mail, no profile record. *)
Theorem register_account_refused
  (fb : Firebase) (email password displayName : string) (w : World) (e : JsError) :
  auth_createUser fb email password = Rejected e ->
  fst (run (register fb email password displayName) w)
    = Rejected (newError (authErrorMessage e)) /\
  trace (snd (run (register fb email password displayName) w))
    = (trace w ++ [CreateUser email password])%list /\
  users (snd (run (register fb email password displayName) w)) = users w /\
  authError (svc (snd (run (register fb email password displayName) w)))
    = Some (authErrorMessage e) /\
  (code e = Some "auth/email-already-in-use" ->
   authErrorMessage e = "An account with this email already exists.").
Proof.
  intros Hcreate. unfold register, handleAuthError. run_service.
  rewrite Hcreate. simpl. repeat split.
  intros Hcode. unfold authErrorMessage. now rewrite Hcode.
Qed.

Lemma register_account_refused_witness :
  authError
    (svc (snd (run (register firebaseEmailInUse "alice@example.org" "secret1" "Alice")
                 (worldOf anonymousSession ∅))))
  = Some "An account with this email already exists.".
Proof.
  apply (register_account_refused firebaseEmailInUse "alice@example.org" "secret1" "Alice"
           (worldOf anonymousSession ∅) emailInUse eq_refl).
Defined.

Lemma register_success_witness :
  exists u,
    fst (run (register firebaseOk "alice@example.org" "secret1" "Ally")
           (worldOf anonymousSession ∅)) = Resolved u /\
    User.roles u = [user] /\ User.permissions u = ["read"].
Proof.
  destruct (register_success firebaseOk "alice@example.org" "secret1" "Ally"
              (worldOf anonymousSession ∅) aliceIdentity eq_refl eq_refl eq_refl eq_refl)
    as (u & data & Hres & _ & Hroles & Hperms & _).
  exists u. repeat split; assumption.
Defined.

(* ===================================================================== *)
(** ** Role and permission administration                                 *)
(* ===================================================================== *)

Lemma updateUserRoles_session
  (fb : Firebase) (uid : string) (rs : list UserRole) (w : World)
  (data : UserProfile.t) (u : User.t) :
  updateDoc_error fb uid = None ->
  users w !! uid = Some data ->
  currentUser (svc w) = Some u ->
  User.uid u = uid ->
  svc (snd (updateUserRoles fb uid rs w))
  = {| currentUser := Some (withRoles rs u); firebaseUser := firebaseUser (svc w);
       loading := loading (svc w); authError := authError (svc w) |}.
Proof.
  intros Hupd Hdoc Hcur Huid. unfold updateUserRoles. run_service.
  rewrite Hupd, Hdoc. simpl. rewrite Hcur. simpl.
  rewrite Huid, bool_decide_eq_true_2 by reflexivity. simpl. now rewrite Hcur.
Qed.

(** [updateUserRoles] on the signed-in user's own record: the store and
    the session end up with the same roles, so that a fresh fetch of the
    profile agrees with the session; permissions, identity, loading and
    [authError] are untouched, in the store only that record changes, and
    there only [roles] and [updatedAt]. *)
Theorem updateUserRoles_current_user
  (fb : Firebase) (uid : string) (rs : list UserRole) (w : World)
  (data : UserProfile.t) (u : User.t) :
  updateDoc_error fb uid = None ->
  users w !! uid = Some data ->
  currentUser (svc w) = Some u ->
  User.uid u = uid ->
  fst (updateUserRoles fb uid rs w) = Resolved tt /\
  userRoles (svc (snd (updateUserRoles fb uid rs w))) = rs /\
  userPermissions (svc (snd (updateUserRoles fb uid rs w))) = userPermissions (svc w) /\
  firebaseUser (svc (snd (updateUserRoles fb uid rs w))) = firebaseUser (svc w) /\
  loading (svc (snd (updateUserRoles fb uid rs w))) = loading (svc w) /\
  authError (svc (snd (updateUserRoles fb uid rs w))) = authError (svc w) /\
  (exists data',
     users (snd (updateUserRoles fb uid rs w)) !! uid = Some data' /\
     UserProfile.roles data' = Some rs /\
     UserProfile.permissions data' = UserProfile.permissions data /\
     UserProfile.email data' = UserProfile.email data /\
     UserProfile.displayName data' = UserProfile.displayName data /\
     UserProfile.createdAt data' = UserProfile.createdAt data /\
     UserProfile.lastLoginAt data' = UserProfile.lastLoginAt data) /\
  (forall other, other <> uid ->
     users (snd (updateUserRoles fb uid rs w)) !! other = users w !! other) /\
  (getDoc_error fb uid = None ->
   forall verified,
     option_map User.roles
       (match fst (getUserProfile fb uid verified (snd (updateUserRoles fb uid rs w))) with
        | Resolved p => p
        | Rejected _ => None
        end)
     = Some (userRoles (svc (snd (updateUserRoles fb uid rs w))))).
Proof.
  intros Hupd Hdoc Hcur Huid.
  unfold updateUserRoles, getUserProfile, userRoles, userPermissions.
  run_service. rewrite Hupd, Hdoc. simpl. rewrite Hcur. simpl.
  rewrite Huid, bool_decide_eq_true_2 by reflexivity. simpl. rewrite Hcur. simpl.
  repeat split.
  - eexists. rewrite lookup_insert_eq. repeat split.
  - intros other Hother. now rewrite lookup_insert_ne by congruence.
  - intros Hget verified. rewrite Hget. simpl. rewrite lookup_insert_eq. reflexivity.
Qed.

Lemma updateUserRoles_current_user_witness :
  userRoles
    (svc (snd (updateUserRoles firebaseOk "u1" [admin; moderator]
                 (worldOf (sessionOf [user] ["read"]) (aliceStored (Some [user]) None)))))
  = [admin; moderator].
Proof.
  assert (Hdoc : users (worldOf (sessionOf [user] ["read"]) (aliceStored (Some [user]) None))
                   !! "u1" = Some (aliceRecord (Some [user]) None)) by reflexivity.
  apply (updateUserRoles_current_user firebaseOk "u1" [admin; moderator]
           (worldOf (sessionOf [user] ["read"]) (aliceStored (Some [user]) None))
           (aliceRecord (Some [user]) None) (aliceWith [user] ["read"])
           eq_refl Hdoc eq_refl eq_refl).
Defined.

(** [updateUserRoles] on somebody else's record (or with nobody signed
    in) writes the store and leaves the session exactly as it was. *)
Theorem updateUserRoles_other_user
  (fb : Firebase) (uid : string) (rs : list UserRole) (w : World) (data : UserProfile.t) :
  updateDoc_error fb uid = None ->
  users w !! uid = Some data ->
  option_map User.uid (currentUser (svc w)) <> Some uid ->
  fst (updateUserRoles fb uid rs w) = Resolved tt /\
  svc (snd (updateUserRoles fb uid rs w)) = svc w /\
  users (snd (updateUserRoles fb uid rs w)) = <[uid := patchRoles rs data]> (users w).
Proof.
  intros Hupd Hdoc Hother. unfold updateUserRoles. run_service.
  rewrite Hupd, Hdoc. simpl. rewrite bool_decide_eq_false_2 by assumption.
  repeat split.
Qed.

Lemma updateUserRoles_other_user_witness :
  svc (snd (updateUserRoles firebaseOk "u1" [admin]
              (worldOf anonymousSession (aliceStored (Some [user]) None))))
  = anonymousSession.
Proof.
  assert (Hdoc : users (worldOf anonymousSession (aliceStored (Some [user]) None))
                   !! "u1" = Some (aliceRecord (Some [user]) None)) by reflexivity.
  apply (updateUserRoles_other_user firebaseOk "u1" [admin]
           (worldOf anonymousSession (aliceStored (Some [user]) None))
           (aliceRecord (Some [user]) None) eq_refl Hdoc).
  discriminate.
Defined.

(** When the store refuses the update, or the record does not exist, the
    administrative updates fail towards the caller and change nothing:
    neither the store nor the session, [authError] included. *)
Theorem administrative_update_failure
  (fb : Firebase) (uid : string) (rs : list UserRole) (ps : list string) (w : World) :
  updateDoc_error fb uid <> None \/ users w !! uid = None ->
  (exists e, updateUserRoles fb uid rs w = (Rejected e, w)) /\
  (exists e, updateUserPermissions fb uid ps w = (Rejected e, w)).
Proof.
  intros Hfail. unfold updateUserRoles, updateUserPermissions. run_service.
  destruct (updateDoc_error fb uid) as [e |]; simpl.
  - split; now exists e.
  - destruct Hfail as [Hfail | Hfail]; [congruence |]. rewrite Hfail. simpl.
    split; eexists; reflexivity.
Qed.

Lemma administrative_update_failure_witness :
  exists e,
    updateUserRoles firebaseOk "nobody" [admin] (worldOf (sessionOf [user] ["read"]) ∅)
    = (Rejected e, worldOf (sessionOf [user] ["read"]) ∅).
Proof.
  assert (Habsent : users (worldOf (sessionOf [user] ["read"]) ∅) !! "nobody" = None)
    by reflexivity.
  exact (proj1 (administrative_update_failure firebaseOk "nobody" [admin] ["read"]
                  (worldOf (sessionOf [user] ["read"]) ∅) (or_intror Habsent))).
Defined.

(** [updateUserPermissions] on the signed-in user's own record sets the
    permissions in the store and in the session alike and leaves the
    roles alone in both. *)
Theorem updateUserPermissions_current_user
  (fb : Firebase) (uid : string) (ps : list string) (w : World)
  (data : UserProfile.t) (u : User.t) :
  updateDoc_error fb uid = None ->
  users w !! uid = Some data ->
  currentUser (svc w) = Some u ->
  User.uid u = uid ->
  fst (updateUserPermissions fb uid ps w) = Resolved tt /\
  userPermissions (svc (snd (updateUserPermissions fb uid ps w))) = ps /\
  userRoles (svc (snd (updateUserPermissions fb uid ps w))) = userRoles (svc w) /\
  isAuthenticated (svc (snd (updateUserPermissions fb uid ps w)))
    = isAuthenticated (svc w) /\
  exists data',
    users (snd (updateUserPermissions fb uid ps w)) !! uid = Some data' /\
    UserProfile.permissions data' = Some ps /\
    UserProfile.roles data' = UserProfile.roles data.
Proof.
  intros Hupd Hdoc Hcur Huid.
  unfold updateUserPermissions, userRoles, userPermissions, isAuthenticated.
  run_service. rewrite Hupd, Hdoc. simpl. rewrite Hcur. simpl.
  rewrite Huid, bool_decide_eq_true_2 by reflexivity. simpl. rewrite Hcur. simpl.
  repeat split. eexists. rewrite lookup_insert_eq. repeat split.
Qed.

Lemma updateUserPermissions_current_user_witness :
  userPermissions
    (svc (snd (updateUserPermissions firebaseOk "u1" ["read"; "write"]
                 (worldOf (sessionOf [user] ["read"]) (aliceStored (Some [user]) None)))))
  = ["read"; "write"].
Proof.
  assert (Hdoc : users (worldOf (sessionOf [user] ["read"]) (aliceStored (Some [user]) None))
                   !! "u1" = Some (aliceRecord (Some [user]) None)) by reflexivity.
  apply (updateUserPermissions_current_user firebaseOk "u1" ["read"; "write"]
           (worldOf (sessionOf [user] ["read"]) (aliceStored (Some [user]) None))
           (aliceRecord (Some [user]) None) (aliceWith [user] ["read"])
           eq_refl Hdoc eq_refl eq_refl).
Defined.

(** Taking every role away from the signed-in user closes the role-guarded
    routes to them at once: after [updateUserRoles uid []] on their own
    record, the role guard of a route that requires some role sends them
    to '/unauthorized'. *)
Theorem revoked_roles_lose_access
  (fb : Firebase) (uid : string) (w : World) (data : UserProfile.t) (u : User.t)
  (required : list UserRole) (ps : option (list string)) (ra : option bool) :
  updateDoc_error fb uid = None ->
  users w !! uid = Some data ->
  currentUser (svc w) = Some u ->
  User.uid u = uid ->
  firebaseUser (svc w) <> None ->
  required <> [] ->
  roleGuard (routeWith (Some required) ps ra) (svc (snd (updateUserRoles fb uid [] w)))
  = toUnauthorized.
Proof.
  intros Hupd Hdoc Hcur Huid Hid Hreq.
  rewrite (updateUserRoles_session fb uid [] w data u Hupd Hdoc Hcur Huid).
  set (s' := {| currentUser := Some (withRoles [] u); firebaseUser := firebaseUser (svc w);
                loading := loading (svc w); authError := authError (svc w) |}).
  assert (Hauth : isAuthenticated s' = true).
  { unfold isAuthenticated, s'. simpl.
    destruct (firebaseUser (svc w)); [reflexivity | congruence]. }
  rewrite roleGuard_checked by assumption.
  assert (Hany : hasAnyRole s' required = false).
  { apply some_nil_false. intros r. reflexivity. }
  assert (Hall : hasAllRoles s' required = false).
  { destruct required as [| r required]; [congruence | reflexivity]. }
  rewrite Hany, Hall. now destruct (nullish ra false).
Qed.

Lemma revoked_roles_lose_access_witness :
  roleGuard (routeWith (Some [admin]) None None)
    (svc (snd (updateUserRoles firebaseOk "u1" []
                 (worldOf (sessionOf [admin] ["read"]) (aliceStored (Some [admin]) None)))))
  = toUnauthorized.
Proof.
  assert (Hdoc : users (worldOf (sessionOf [admin] ["read"]) (aliceStored (Some [admin]) None))
                   !! "u1" = Some (aliceRecord (Some [admin]) None)) by reflexivity.
  apply (revoked_roles_lose_access firebaseOk "u1"
           (worldOf (sessionOf [admin] ["read"]) (aliceStored (Some [admin]) None))
           (aliceRecord (Some [admin]) None) (aliceWith [admin] ["read"])
           [admin] None None eq_refl Hdoc eq_refl eq_refl); discriminate.
Defined.

(* ===================================================================== *)
(** ** E-mail operations                                                  *)
(* ===================================================================== *)

(** [resendVerificationEmail]: with no identity attached it fails with
    'No user logged in' without calling the provider and without touching
    the session ([authError] included).  With an identity it makes exactly
    one dispatch for that identity; a successful dispatch leaves the
    session as it was, a failed one stores the classified message and
    sets loading to false, and in no case are the profile, the identity
    or the store changed. *)
Theorem resendVerificationEmail_behaviour (fb : Firebase) (w : World) :
  (firebaseUser (svc w) = None ->
   run (resendVerificationEmail fb) w = (Rejected (newError "No user logged in"), w)) /\
  (forall fu,
     firebaseUser (svc w) = Some fu ->
     trace (snd (run (resendVerificationEmail fb) w))
       = (trace w ++ [SendEmailVerification (FirebaseUser.uid fu)])%list /\
     users (snd (run (resendVerificationEmail fb) w)) = users w /\
     currentUser (svc (snd (run (resendVerificationEmail fb) w))) = currentUser (svc w) /\
     firebaseUser (svc (snd (run (resendVerificationEmail fb) w))) = Some fu /\
     (auth_sendEmailVerification fb fu = Resolved tt ->
      fst (run (resendVerificationEmail fb) w) = Resolved tt /\
      svc (snd (run (resendVerificationEmail fb) w)) = svc w) /\
     (forall e,
        auth_sendEmailVerification fb fu = Rejected e ->
        fst (run (resendVerificationEmail fb) w) = Rejected (newError (authErrorMessage e)) /\
        authError (svc (snd (run (resendVerificationEmail fb) w)))
          = Some (authErrorMessage e) /\
        loading (svc (snd (run (resendVerificationEmail fb) w))) = false)).
Proof.
  unfold resendVerificationEmail, handleAuthError. split.
  - intros Hnone. unfold run. rewrite Hnone. reflexivity.
  - intros fu Hfu. unfold run. rewrite Hfu. run_service.
    destruct (auth_sendEmailVerification fb fu) as [[] | e0]; simpl.
    + repeat split; try assumption; discriminate.
    + split; [reflexivity |]. split; [reflexivity |]. split; [reflexivity |].
      split; [assumption |]. split; [discriminate |].
      intros e [= ->]. repeat split.
Qed.

Lemma resendVerificationEmail_behaviour_witness :
  run (resendVerificationEmail firebaseOk) (worldOf anonymousSession ∅)
    = (Rejected (newError "No user logged in"), worldOf anonymousSession ∅) /\
  authError
    (svc (snd (run (resendVerificationEmail firebaseVerificationFails)
                 (worldOf (sessionOf [user] ["read"]) ∅))))
    = Some "Firebase: Error (auth/network-request-failed).".
Proof.
  split.
  - apply (resendVerificationEmail_behaviour firebaseOk (worldOf anonymousSession ∅)).
    reflexivity.
  - apply (resendVerificationEmail_behaviour firebaseVerificationFails
             (worldOf (sessionOf [user] ["read"]) ∅)) with (fu := aliceIdentity)
                                                          (e := networkFailure);
      reflexivity.
Defined.

(** [resetPassword] never changes who is signed in: profile, identity and
    store are as before.  It clears [authError] and sets loading when
    called, and loading is false once it has settled; a failed dispatch
    is reported with the classified message, which is then in
    [authError]. *)
Theorem resetPassword_keeps_session
  (sent : string -> Outcome unit) (email : string) (w : World) :
  loading (svc (snd (resetPassword sent email w))) = true /\
  authError (svc (snd (resetPassword sent email w))) = None /\
  currentUser (svc (snd (run (resetPassword sent email) w))) = currentUser (svc w) /\
  firebaseUser (svc (snd (run (resetPassword sent email) w))) = firebaseUser (svc w) /\
  isAuthenticated (svc (snd (run (resetPassword sent email) w))) = isAuthenticated (svc w) /\
  users (snd (run (resetPassword sent email) w)) = users w /\
  loading (svc (snd (run (resetPassword sent email) w))) = false /\
  (sent email = Resolved tt ->
   fst (run (resetPassword sent email) w) = Resolved tt /\
   authError (svc (snd (run (resetPassword sent email) w))) = None) /\
  (forall e,
     sent email = Rejected e ->
     fst (run (resetPassword sent email) w) = Rejected (newError (authErrorMessage e)) /\
     authError (svc (snd (run (resetPassword sent email) w))) = Some (authErrorMessage e)).
Proof.
  unfold resetPassword, sendPasswordResetEmail, handleAuthError, isAuthenticated.
  run_service.
  destruct (sent email) as [[] | e0]; simpl;
    (split; [reflexivity |]); (split; [reflexivity |]); (split; [reflexivity |]);
    (split; [reflexivity |]); (split; [reflexivity |]); (split; [reflexivity |]);
    (split; [reflexivity |]); split.
  - now split.
  - discriminate.
  - discriminate.
  - intros e [= ->]. now split.
Qed.

(* ===================================================================== *)
(** ** The login page                                                     *)
(* ===================================================================== *)

Lemma authGuard_redirect_params
  (route : ActivatedRouteSnapshot) (state : RouterStateSnapshot)
  (s : AuthService) (ticks : list AuthService) (t : UrlTree) :
  authGuard route state s ticks = Some (redirect t) ->
  t = createUrlTree ["/login"] [("returnUrl", url state)].
Proof.
  unfold authGuard. rewrite checkAuth_firstSettled.
  destruct (isLoading s).
  - destruct (firstSettled ticks) as [s' |]; simpl; [| discriminate].
    destruct (isAuthenticated s'); [discriminate | now intros [= <-]].
  - destruct (isAuthenticated s); [discriminate | now intros [= <-]].
Qed.

(** The return trip of a denied navigation: when the authentication guard
    has redirected a request to the login page, a successful login
    submitted there navigates back to the url that was requested.  On a
    login page reached without [returnUrl] (or with an empty one) a
    successful login navigates to '/dashboard', and a failed login does
    not navigate at all.  The form's success message is cleared in every
    case. *)
Theorem login_page_returns_to_requested_url
  (fb : Firebase) (c : LoginComponent.t) (w : World) :
  (forall route state s ticks t u,
     authGuard route state s ticks = Some (redirect t) ->
     url state <> "" ->
     fst (run (login fb (LoginComponent.email c) (LoginComponent.password c)) w)
       = Resolved u ->
     snd (fst (LoginComponent.onSubmit fb (queryParams t) c w)) = Some (url state)) /\
  (forall params u,
     LoginComponent.param "returnUrl" params = None \/
     LoginComponent.param "returnUrl" params = Some "" ->
     fst (run (login fb (LoginComponent.email c) (LoginComponent.password c)) w)
       = Resolved u ->
     snd (fst (LoginComponent.onSubmit fb params c w)) = Some "/dashboard") /\
  (forall params e,
     fst (run (login fb (LoginComponent.email c) (LoginComponent.password c)) w)
       = Rejected e ->
     snd (fst (LoginComponent.onSubmit fb params c w)) = None) /\
  (forall params,
     LoginComponent.successMessage (fst (fst (LoginComponent.onSubmit fb params c w))) = "" /\
     snd (LoginComponent.onSubmit fb params c w)
       = snd (run (login fb (LoginComponent.email c) (LoginComponent.password c)) w)).
Proof.
  unfold LoginComponent.onSubmit.
  destruct (run (login fb (LoginComponent.email c) (LoginComponent.password c)) w)
    as [[u0 | e0] w'] eqn:Hrun; simpl; repeat split; try discriminate.
  - intros route state s ticks t u Hdenied Hurl _.
    rewrite (authGuard_redirect_params _ _ _ _ _ Hdenied). simpl.
    destruct (String.eqb_spec (url state) ""); congruence.
  - intros params u [-> | ->] _; reflexivity.
Qed.

Lemma login_page_returns_to_requested_url_witness :
  snd (fst (LoginComponent.onSubmit firebaseOk [("returnUrl", "/admin?tab=users")]
              (LoginComponent.mk "alice@example.org" "secret1" "old message")
              (worldOf anonymousSession ∅)))
  = Some "/admin?tab=users".
Proof.
  destruct (login_page_returns_to_requested_url firebaseOk
              (LoginComponent.mk "alice@example.org" "secret1" "old message")
              (worldOf anonymousSession ∅)) as [Hback _].
  eapply (Hback (routeWith None None None) (mkState "/admin?tab=users")
            anonymousSession []
            (createUrlTree ["/login"] [("returnUrl", "/admin?tab=users")]));
    [reflexivity | discriminate | reflexivity].
Defined.

(* ===================================================================== *)
(** ** [FirestoreService]                                                 *)
(* ===================================================================== *)

Section FirestoreServiceFacts.

Variable V : Type.
Variable timestampField : V.
Variable stringField : string -> V.

Lemma spread_lookup_over (a b : gmap string V) (k : string) (v : V) :
  b !! k = Some v -> spread V a b !! k = Some v.
Proof. intros Hb. unfold spread. now apply lookup_union_Some_l. Qed.

Lemma spread_lookup_base (a b : gmap string V) (k : string) :
  b !! k = None -> spread V a b !! k = a !! k.
Proof. intros Hb. unfold spread. now apply lookup_union_r. Qed.

(** The payload the service writes always carries the server's clock in
    [updatedAt], whatever the caller passed there.  [addDocument], and
    [setDocument] without [merge], stamp [createdAt] as well; a merging
    [setDocument] and [updateDocument] send [createdAt] only if the
    caller did, with the caller's value.  Every other field goes out as
    the caller gave it, to the collection and document asked for. *)
Theorem firestore_writes_are_stamped
  (collectionName documentId : string) (data : gmap string V) :
  (exists payload,
     fst (addDocument V timestampField collectionName documentId data)
       = SetDocCall collectionName documentId payload false /\
     payload !! "updatedAt" = Some timestampField /\
     payload !! "createdAt" = Some timestampField /\
     (forall k, k <> "updatedAt" -> k <> "createdAt" -> payload !! k = data !! k)) /\
  (forall merge,
   exists payload,
     setDocument V timestampField collectionName documentId data merge
       = SetDocCall collectionName documentId payload merge /\
     payload !! "updatedAt" = Some timestampField /\
     (merge = false -> payload !! "createdAt" = Some timestampField) /\
     (merge = true -> payload !! "createdAt" = data !! "createdAt") /\
     (forall k, k <> "updatedAt" -> k <> "createdAt" -> payload !! k = data !! k)) /\
  (exists payload,
     updateDocument V timestampField collectionName documentId data
       = UpdateDocCall collectionName documentId payload /\
     payload !! "updatedAt" = Some timestampField /\
     (forall k, k <> "updatedAt" -> payload !! k = data !! k)).
Proof.
  split; [| split].
  - eexists. split; [reflexivity |]. split; [| split].
    + apply spread_lookup_over. now rewrite lookup_insert_ne, lookup_singleton_eq.
    + apply spread_lookup_over. now rewrite lookup_insert_eq.
    + intros k Hu Hc. apply spread_lookup_base.
      now rewrite lookup_insert_ne, lookup_singleton_ne.
  - intros merge. eexists. split; [reflexivity |].
    destruct merge; (split; [| split; [| split]]); try discriminate.
    + rewrite spread_lookup_base by apply lookup_empty.
      apply spread_lookup_over, lookup_singleton_eq.
    + intros _. rewrite spread_lookup_base by apply lookup_empty.
      apply spread_lookup_base. now apply lookup_singleton_ne.
    + intros k Hu Hc. rewrite spread_lookup_base by apply lookup_empty.
      apply spread_lookup_base. now apply lookup_singleton_ne.
    + rewrite spread_lookup_base by now apply lookup_singleton_ne.
      apply spread_lookup_over, lookup_singleton_eq.
    + intros _. apply spread_lookup_over, lookup_singleton_eq.
    + intros k Hu Hc. rewrite spread_lookup_base by now apply lookup_singleton_ne.
      apply spread_lookup_base. now apply lookup_singleton_ne.
  - eexists. split; [reflexivity |]. split.
    + apply spread_lookup_over, lookup_singleton_eq.
    + intros k Hu. apply spread_lookup_base. now apply lookup_singleton_ne.
Qed.

(** [addDocument] hands back the generated id when the write succeeds and
    the write's error otherwise. *)
Lemma addDocument_result (collectionName autoId : string) (data : gmap string V) :
  snd (addDocument V timestampField collectionName autoId data) (Resolved tt)
    = Resolved autoId /\
  forall e,
    snd (addDocument V timestampField collectionName autoId data) (Rejected e) = Rejected e.
Proof. split; reflexivity. Qed.

(** [getDocument] answers null for a missing document and passes a read
    error on.  For an existing document it answers the document's fields
    plus [id]: every stored field is there with its stored value, so a
    stored field that is itself called [id] hides the document id; the
    document id appears under [id] only when the data has no such field.
    [documentExists] is true exactly when [getDocument] answers a
    document. *)
Theorem getDocument_fields
  (collectionName documentId : string) (snapshot : Outcome (option (gmap string V))) :
  (snapshot = Resolved None ->
   getDocument V stringField collectionName documentId snapshot = Resolved None) /\
  (forall e, snapshot = Rejected e ->
             getDocument V stringField collectionName documentId snapshot = Rejected e) /\
  (forall data,
     snapshot = Resolved (Some data) ->
     exists d,
       getDocument V stringField collectionName documentId snapshot = Resolved (Some d) /\
       (forall k v, data !! k = Some v -> d !! k = Some v) /\
       (data !! "id" = None -> d !! "id" = Some (stringField documentId)) /\
       (forall k, k <> "id" -> d !! k = data !! k)) /\
  (documentExists V collectionName documentId snapshot = Resolved true <->
   exists d, getDocument V stringField collectionName documentId snapshot
             = Resolved (Some d)).
Proof.
  split; [| split; [| split]].
  - now intros ->.
  - now intros e ->.
  - intros data ->. eexists. split; [reflexivity |]. split; [| split].
    + intros k v Hk. now apply spread_lookup_over.
    + intros Hid. rewrite spread_lookup_base by assumption. apply lookup_singleton_eq.
    + intros k Hk. destruct (data !! k) as [v |] eqn:E.
      * now apply spread_lookup_over.
      * rewrite spread_lookup_base by assumption. now apply lookup_singleton_ne.
  - destruct snapshot as [[data |] | e]; simpl; split;
      try discriminate; try (intros [d Hd]; discriminate Hd).
    + intros _. eexists. reflexivity.
    + reflexivity.
Qed.

(** [getCollection] answers one object per document of the snapshot, in
    the snapshot's order, each built as [getDocument] builds it. *)
Theorem getCollection_pointwise
  (collectionName : string) (docs : list (string * gmap string V)) :
  exists out,
    getCollection V stringField collectionName (Resolved docs) = Resolved out /\
    length out = length docs /\
    forall (i : nat) (documentId : string) (data : gmap string V),
      docs !! i = Some (documentId, data) ->
      exists d,
        out !! i = Some d /\
        getDocument V stringField collectionName documentId (Resolved (Some data))
          = Resolved (Some d).
Proof.
  eexists. split; [reflexivity |]. split; [apply length_map |].
  intros i documentId data Hi. eexists. split; [| reflexivity].
  change (map ?f ?l) with (f <$> l). rewrite list_lookup_fmap, Hi. reflexivity.
Qed.

End FirestoreServiceFacts.

Lemma getDocument_fields_witness :
  exists d,
    getDocument FieldValue StringValue "posts" "p1"
      (Resolved (Some {[ "title" := StringValue "Hello"; "id" := NumberValue 7 ]}))
    = Resolved (Some d) /\
    d !! "id" = Some (NumberValue 7) /\ d !! "title" = Some (StringValue "Hello").
Proof.
  destruct (getDocument_fields FieldValue StringValue "posts" "p1"
              (Resolved (Some {[ "title" := StringValue "Hello"; "id" := NumberValue 7 ]})))
    as (_ & _ & Hsome & _).
  destruct (Hsome _ eq_refl) as (d & Hd & Hfields & _).
  exists d. split; [exact Hd |]. split; apply Hfields; reflexivity.
Defined.
